(** * britbus/data-importer: journeys, fingerprints, references, overlay, cache

    A shallow embedding of the [ctdf] journey code (fingerprinting,
    de-duplication, stop flattening, lazy reference resolution, realtime
    overlay) and of the cached [ServicesByStopQuery], followed by the
    properties the specification states about them. *)

From Stdlib Require Import ZArith Ascii String List Lia.
From stdpp Require Import base option list sorting gmap strings.

Local Open Scope Z_scope.

(** ** crypto/sha256

    The digest of FIPS 180-4 over bytes kept as [Z] in [0, 256), words as
    [Z] in [0, 2^32) with the wrap-around written out. *)
Module Sha256.

Definition word_mask : Z := 0xffffffff.

Definition wrap (x : Z) : Z := Z.land x word_mask.

Definition add32 (x y : Z) : Z := wrap (x + y).

Definition rotr (n x : Z) : Z :=
  Z.lor (Z.shiftr x n) (wrap (Z.shiftl x (32 - n))).

Definition not32 (x : Z) : Z := Z.lxor x word_mask.

Definition ch (x y z : Z) : Z :=
  Z.lxor (Z.land x y) (Z.land (not32 x) z).

Definition maj (x y z : Z) : Z :=
  Z.lxor (Z.lxor (Z.land x y) (Z.land x z)) (Z.land y z).

Definition bsig0 (x : Z) : Z :=
  Z.lxor (Z.lxor (rotr 2 x) (rotr 13 x)) (rotr 22 x).

Definition bsig1 (x : Z) : Z :=
  Z.lxor (Z.lxor (rotr 6 x) (rotr 11 x)) (rotr 25 x).

Definition ssig0 (x : Z) : Z :=
  Z.lxor (Z.lxor (rotr 7 x) (rotr 18 x)) (Z.shiftr x 3).

Definition ssig1 (x : Z) : Z :=
  Z.lxor (Z.lxor (rotr 17 x) (rotr 19 x)) (Z.shiftr x 10).

(** The first sixty-four primes. *)
Definition primes : list Z :=
  [ 2; 3; 5; 7; 11; 13; 17; 19; 23; 29; 31; 37; 41; 43; 47; 53;
    59; 61; 67; 71; 73; 79; 83; 89; 97; 101; 103; 107; 109; 113; 127; 131;
    137; 139; 149; 151; 157; 163; 167; 173; 179; 181; 191; 193; 197; 199; 211; 223;
    227; 229; 233; 239; 241; 251; 257; 263; 269; 271; 277; 281; 283; 293; 307; 311 ].

(** The integer cube root, found bit by bit from bit [bits] down. *)
Fixpoint cube_root (bits : nat) (n r : Z) : Z :=
  match bits with
  | O => r
  | S k =>
      let c := r + 2 ^ Z.of_nat k in
      if c * c * c <=? n then cube_root k n c else cube_root k n r
  end.

(** The round constants: the first thirty-two bits of the fractional parts of
    the cube roots of the first sixty-four primes. *)
Definition round_constants : list Z :=
  Eval vm_compute in map (fun p => wrap (cube_root 40 (p * 2 ^ 96) 0)) primes.

(** The initial hash value: the first thirty-two bits of the fractional parts
    of the square roots of the first eight primes. *)
Definition initial_state : list Z :=
  Eval vm_compute in map (fun p => wrap (Z.sqrt (p * 2 ^ 64))) (firstn 8 primes).

(** The bytes of [x], most significant first, [n] of them. *)
Fixpoint be_bytes (n : nat) (x : Z) : list Z :=
  match n with
  | O => []
  | S k => Z.land (Z.shiftr x (8 * Z.of_nat k)) 0xff :: be_bytes k x
  end.

Definition be_word (bs : list Z) : Z :=
  fold_left (fun acc b => Z.lor (Z.shiftl acc 8) b) bs 0.

(** Message padding: a one bit, zeros up to 56 modulo 64, the bit length. *)
Definition pad (msg : list Z) : list Z :=
  let len := Z.of_nat (length msg) in
  let zeros := Z.to_nat ((55 - len) mod 64) in
  msg ++ 0x80 :: repeat 0 zeros ++ be_bytes 8 (8 * len).

(** [chunks k n l]: the first [n] consecutive pieces of [l], [k] long each. *)
Fixpoint chunks (k n : nat) (l : list Z) : list (list Z) :=
  match n with
  | O => []
  | S m => firstn k l :: chunks k m (skipn k l)
  end.

(** The message schedule, newest word first: [extend n ws] adds [n] words. *)
Fixpoint extend (n : nat) (ws : list Z) : list Z :=
  match n with
  | O => ws
  | S m =>
      let w := add32 (add32 (ssig1 (nth 1 ws 0)) (nth 6 ws 0))
                     (add32 (ssig0 (nth 14 ws 0)) (nth 15 ws 0)) in
      extend m (w :: ws)
  end.

Definition schedule (block : list Z) : list Z :=
  rev (extend 48 (rev (map be_word (chunks 4 16 block)))).

Record regs := Regs { ra : Z; rb : Z; rc : Z; rd : Z;
                      re : Z; rf : Z; rg : Z; rh : Z }.

Definition round (s : regs) (kw : Z * Z) : regs :=
  let t1 := add32 (add32 (add32 (rh s) (bsig1 (re s)))
                         (add32 (ch (re s) (rf s) (rg s)) (fst kw)))
                  (snd kw) in
  let t2 := add32 (bsig0 (ra s)) (maj (ra s) (rb s) (rc s)) in
  Regs (add32 t1 t2) (ra s) (rb s) (rc s) (add32 (rd s) t1) (re s) (rf s) (rg s).

Definition regs_of (h : list Z) : regs :=
  Regs (nth 0 h 0) (nth 1 h 0) (nth 2 h 0) (nth 3 h 0)
       (nth 4 h 0) (nth 5 h 0) (nth 6 h 0) (nth 7 h 0).

Definition list_of (s : regs) : list Z :=
  [ra s; rb s; rc s; rd s; re s; rf s; rg s; rh s].

Definition compress (h : list Z) (block : list Z) : list Z :=
  let s := fold_left round (combine round_constants (schedule block)) (regs_of h) in
  map (fun p => add32 (fst p) (snd p)) (combine h (list_of s)).

(** [Sum256]: the 32 digest bytes of a message. *)
Definition Sum256 (msg : list Z) : list Z :=
  let padded := pad msg in
  let blocks := chunks 64 (length padded / 64)%nat padded in
  flat_map (be_bytes 4) (fold_left compress blocks initial_state).

End Sha256.

(** ** Byte strings and [fmt]

    A Go [string] is a sequence of bytes; [[]byte(s)] is the same bytes. *)
Definition bytes_of_string (s : string) : list Z :=
  map (fun c => Z.of_N (N_of_ascii c)) (list_ascii_of_string s).

Definition hex_digit (d : Z) : ascii :=
  if d <? 10 then ascii_of_N (Z.to_N (48 + d)) else ascii_of_N (Z.to_N (87 + d)).

(** [fmt.Sprintf("%x", bs)]: two lower-case hexadecimal digits per byte. *)
Fixpoint Sprintf_x (bs : list Z) : string :=
  match bs with
  | [] => EmptyString
  | b :: rest =>
      String (hex_digit (Z.shiftr b 4)) (String (hex_digit (Z.land b 15)) (Sprintf_x rest))
  end.

(** [hash.Hash] as [crypto/sha256] implements it: [Write] adds bytes to the
    running message and never fails, [Sum(nil)] is the digest of everything
    written so far. *)
Module hash.

Record Hash := { written : list Z }.

Definition New : Hash := {| written := [] |}.

Definition Write (h : Hash) (p : list Z) : Hash :=
  {| written := written h ++ p |}.

Definition Sum (h : Hash) : list Z := Sha256.Sum256 (written h).

End hash.

(** ** time.Time

    An instant (seconds and nanoseconds since the Unix epoch) with a
    location.  A location is [time.UTC] or a location with one zone: its name,
    the abbreviation and the offset in seconds east of UTC of that zone
    ([time.FixedZone(n, o)] is [Zone n n o]).  Monotonic clock readings, which
    only [time.Now] attaches, are not modelled. *)
Module time.

Inductive Location : Type :=
| UTC
| Zone (name : string) (abbreviation : string) (offset : Z).

Record Time := { sec : Z; nsec : Z; loc : Location }.

Definition Duration := Z.
Definition Nanosecond : Duration := 1.
Definition Second : Duration := 1000000000.
Definition Minute : Duration := 60 * Second.
Definition Hour : Duration := 60 * Minute.

Definition UnixNano (t : Time) : Z := sec t * 1000000000 + nsec t.

Definition Add (t : Time) (d : Duration) : Time :=
  let n := UnixNano t + d in
  {| sec := n / 1000000000; nsec := n mod 1000000000; loc := loc t |}.

Definition Sub (t u : Time) : Duration := UnixNano t - UnixNano u.

Definition After (t u : Time) : bool := UnixNano u <? UnixNano t.

Definition zone_name (l : Location) : string :=
  match l with UTC => "UTC" | Zone _ a _ => a end.

Definition zone_offset (l : Location) : Z :=
  match l with UTC => 0 | Zone _ _ o => o end.

(** Seconds since the epoch as the wall clock of the location shows them. *)
Definition abs (t : Time) : Z := sec t + zone_offset (loc t).

(** Year, month and day of a day number counted from 1970-01-01. *)
Definition civil (days : Z) : Z * Z * Z :=
  let z := days + 719468 in
  let era := z / 146097 in
  let doe := z - era * 146097 in
  let yoe := (doe - doe / 1460 + doe / 36524 - doe / 146096) / 365 in
  let doy := doe - (365 * yoe + yoe / 4 - yoe / 100) in
  let mp := (5 * doy + 2) / 153 in
  let d := doy - (153 * mp + 2) / 5 + 1 in
  let m := if mp <? 10 then mp + 3 else mp - 9 in
  let y := yoe + era * 400 + (if m <=? 2 then 1 else 0) in
  (y, m, d).

Definition Date (t : Time) : Z * Z * Z := civil (abs t / 86400).

Definition Clock (t : Time) : Z * Z * Z :=
  let s := abs t mod 86400 in
  (s / 3600, (s mod 3600) / 60, s mod 60).

Definition digit (d : Z) : ascii := ascii_of_N (Z.to_N (48 + d)).

(** The decimal digits of [u], least significant last; [fuel] bounds their
    number. *)
Fixpoint digits (fuel : nat) (u : Z) (acc : string) : string :=
  match fuel with
  | O => acc
  | S k =>
      let acc' := String (digit (u mod 10)) acc in
      if u <? 10 then acc' else digits k (u / 10) acc'
  end.

Fixpoint zeros (n : nat) : string :=
  match n with O => EmptyString | S k => String "0" (zeros k) end.

(** [appendInt]: decimal, a minus sign for negatives, zero-padded to
    [width] digits. *)
Definition appendInt (x : Z) (width : nat) : string :=
  let u := Z.abs x in
  let ds := digits (S (Z.to_nat (Z.log2 u))) u EmptyString in
  ((if (x <? 0)%Z then "-" else "") ++
   zeros (width - String.length ds) ++ ds)%string.

Fixpoint trim_zeros_rev (s : list ascii) : list ascii :=
  match s with
  | "0"%char :: r => trim_zeros_rev r
  | _ => s
  end.

(** The [.999999999] layout element: nothing for a whole second, otherwise
    a dot and the nanoseconds without trailing zeros. *)
Definition appendNano (nanosec : Z) : string :=
  if nanosec =? 0 then EmptyString
  else
    let ds := list_ascii_of_string (appendInt nanosec 9) in
    String "." (string_of_list_ascii (rev (trim_zeros_rev (rev ds)))).

(** The [-0700] layout element; the offset is cut to whole minutes. *)
Definition appendNumTZ (offset : Z) : string :=
  let zone := Z.quot offset 60 in
  ((if (zone <? 0)%Z then "-" else "+") ++
   appendInt (Z.quot (Z.abs zone) 60) 2 ++ appendInt (Z.rem (Z.abs zone) 60) 2)%string.

(** The [MST] layout element: the abbreviation, or the numeric offset when
    the zone has none. *)
Definition appendTZ (l : Location) : string :=
  if decide (zone_name l = EmptyString) then appendNumTZ (zone_offset l)
  else zone_name l.

(** [Time.String]: layout [2006-01-02 15:04:05.999999999 -0700 MST]. *)
Definition String_ (t : Time) : string :=
  let '(y, m, d) := Date t in
  let '(hh, mm, ss) := Clock t in
  (appendInt y 4 ++ "-" ++ appendInt m 2 ++ "-" ++ appendInt d 2 ++ " " ++
   appendInt hh 2 ++ ":" ++ appendInt mm 2 ++ ":" ++ appendInt ss 2 ++
   appendNano (nsec t) ++ " " ++
   appendNumTZ (zone_offset (loc t)) ++ " " ++ appendTZ (loc t))%string.

Definition longMonthNames : list string :=
  [ "January"; "February"; "March"; "April"; "May"; "June"; "July";
    "August"; "September"; "October"; "November"; "December" ]%string.

Definition lowerhex (d : Z) : ascii :=
  if d <? 10 then ascii_of_N (Z.to_N (48 + d)) else ascii_of_N (Z.to_N (87 + d)).

Definition double_quote : ascii := ascii_of_N 34.
Definition backslash : ascii := ascii_of_N 92.

(** [quote]: the name between double quotes, a backslash before a quote or
    a backslash, bytes outside printable ASCII as [\xhh]. *)
Fixpoint quote_body (s : string) : string :=
  match s with
  | EmptyString => EmptyString
  | String c r =>
      let b := Z.of_N (N_of_ascii c) in
      if (128 <=? b) || (b <? 32) then
        String backslash (String "x" (String (lowerhex (Z.shiftr b 4))
          (String (lowerhex (Z.land b 15)) (quote_body r))))
      else if (b =? 34) || (b =? 92) then String backslash (String c (quote_body r))
      else String c (quote_body r)
  end.

Definition quote (s : string) : string :=
  String double_quote (quote_body s ++ String double_quote EmptyString).

(** [Time.GoString]: the [time.Date(...)] expression that builds the time. *)
Definition GoString (t : Time) : string :=
  let '(y, m, d) := Date t in
  let '(hh, mm, ss) := Clock t in
  ("time.Date(" ++ appendInt y 0 ++
   (if ((1 <=? m) && (m <=? 12))%Z
    then ", time." ++ nth (Z.to_nat (m - 1)) longMonthNames EmptyString
    else appendInt m 0) ++
   ", " ++ appendInt d 0 ++ ", " ++ appendInt hh 0 ++ ", " ++ appendInt mm 0 ++
   ", " ++ appendInt ss 0 ++ ", " ++ appendInt (nsec t) 0 ++ ", " ++
   match loc t with
   | UTC => "time.UTC"
   | Zone n _ _ => "time.Location(" ++ quote n ++ ")"
   end ++ ")")%string.

End time.

(** Go's bounds-checked [l[i]]: [None] stands for the run-time panic. *)
Definition index {A : Type} (l : list A) (i : Z) : option A :=
  if (i <? 0) || (Z.of_nat (length l) <=? i) then None else l !! Z.to_nat i.

(** A [map[string]bool] read: a missing key reads as [false]. *)
Definition flag_of (m : gmap string bool) (k : string) : bool :=
  default false (m !! k).

(** ** Package [ctdf]: the entities

    Each struct is a record in a module of its name.  A pointer field is an
    [option] ([None] is [nil]).  Fields whose types are declared in other
    files and that none of the functions below reads ([DataSource],
    [Track], [DetailedRailInformation], [Associations], the activities) are
    left out.  [Operator], [Service], [Stop], [Availability] and
    [RealtimeJourney] are declared in other files too: they carry the
    fields the code and its queries name. *)
Module Stop.
(** Modelled from the spec: the struct is declared elsewhere; a platform has
    a primary identifier ([platforms.primaryidentifier] in the stop queries). *)
Record Platform := { PlatformPrimaryIdentifier : string }.

(** Modelled from the spec: the struct is declared elsewhere; a stop has a
    primary identifier and platforms. *)
Record t := { PrimaryIdentifier : string; Platforms : list Platform }.

(** Modelled from the spec: [GetAllStopIDs] is declared elsewhere; it
    collects the stop's own identifier plus all platform identifiers. *)
Definition GetAllStopIDs (s : t) : list string :=
  PrimaryIdentifier s :: map PlatformPrimaryIdentifier (Platforms s).
End Stop.

Module Operator.
(** Modelled from the spec: the struct is declared elsewhere; an operator has
    a primary identifier and a set of other identifiers. *)
Record t := { PrimaryIdentifier : string; OtherIdentifiers : list string }.
End Operator.

Module Service.
(** Modelled from the spec: the struct is declared elsewhere; a service has a
    primary identifier, a set of other identifiers and further fields that the
    restricted projection keeps, here its name. *)
Record t := { PrimaryIdentifier : string;
              OtherIdentifiers : list string;
              ServiceName : string }.
End Service.

Module AvailabilityRule.
(** Modelled from the spec: the struct is declared elsewhere; a rule
    contributes its type, value and description. *)
Record t := { Type_ : string; Value : string; Description : string }.
End AvailabilityRule.

Module Availability.
(** Modelled from the spec: the struct is declared elsewhere; the four rule
    lists. *)
Record t := { Match : list AvailabilityRule.t;
              MatchSecondary : list AvailabilityRule.t;
              Exclude : list AvailabilityRule.t;
              Condition : list AvailabilityRule.t }.
End Availability.

Module RealtimeJourney.
(** Modelled from the spec: the struct is declared elsewhere; a realtime
    journey has a reference to its journey ([JourneyRef], the stored
    [journey.primaryidentifier]) and a modification time. *)
Record t := { PrimaryIdentifier : string;
              JourneyRef : string;
              ModificationDateTime : time.Time }.
End RealtimeJourney.

(** ** Package [database]

    The document store: one list of documents per collection, in the store's
    natural order.  [FindOne] without a sort option yields the first document
    that matches the filter.  The driver's [Decode] writes through a pointer
    to the destination: when no document matched it returns an error (dropped
    by every caller here) and leaves the destination as it was; when the
    destination is nil it allocates a value for the document; when the
    destination already points to a value it decodes the document into that
    value, and what the document does not carry stays as it was.  A stored
    journey is kept with the fields the queries name. *)
Module database.

Record JourneyDocument := {
  serviceref : string;
  path : list (string * string) }.

Record Database := {
  operators : list Operator.t;
  services : list Service.t;
  stops : list Stop.t;
  realtime_journeys : list RealtimeJourney.t;
  journeys : list JourneyDocument }.

Definition FindOne {A : Type} (filter : A -> bool) (collection : list A) : option A :=
  List.find filter collection.

Definition Find {A : Type} (filter : A -> bool) (collection : list A) : list A :=
  List.filter filter collection.

(** [Decode] at a destination that holds nil when it is called: a pointer
    variable declared just before the call, or a field behind a nil guard. *)
Definition Decode {A : Type} (result : option A) : option A :=
  match result with
  | Some document => Some document
  | None => None
  end.

(** [Decode] at a destination that may be populated.  [into document old] is
    the value the destination points to once the document has been decoded
    into the value [old] it pointed to; it depends on the fields the document
    carries and is a parameter of every caller. *)
Definition DecodeInto {A : Type} (into : A -> A -> A) (result : option A)
    (destination : option A) : option A :=
  match result with
  | None => destination
  | Some document =>
      match destination with
      | None => Some document
      | Some old => Some (into document old)
      end
  end.

End database.

Module JourneyPathItem.

Record t := {
  OriginStopRef : string;
  DestinationStopRef : string;
  OriginStop : option Stop.t;
  DestinationStop : option Stop.t;
  OriginPlatform : string;
  DestinationPlatform : string;
  Distance : Z;
  OriginArrivalTime : time.Time;
  DestinationArrivalTime : time.Time;
  OriginDepartureTime : time.Time;
  DestinationDisplay : string }.

Definition set_OriginStop (jpi : t) (s : option Stop.t) : t :=
  {| OriginStopRef := OriginStopRef jpi;
     DestinationStopRef := DestinationStopRef jpi;
     OriginStop := s;
     DestinationStop := DestinationStop jpi;
     OriginPlatform := OriginPlatform jpi;
     DestinationPlatform := DestinationPlatform jpi;
     Distance := Distance jpi;
     OriginArrivalTime := OriginArrivalTime jpi;
     DestinationArrivalTime := DestinationArrivalTime jpi;
     OriginDepartureTime := OriginDepartureTime jpi;
     DestinationDisplay := DestinationDisplay jpi |}.

Definition set_DestinationStop (jpi : t) (s : option Stop.t) : t :=
  {| OriginStopRef := OriginStopRef jpi;
     DestinationStopRef := DestinationStopRef jpi;
     OriginStop := OriginStop jpi;
     DestinationStop := s;
     OriginPlatform := OriginPlatform jpi;
     DestinationPlatform := DestinationPlatform jpi;
     Distance := Distance jpi;
     OriginArrivalTime := OriginArrivalTime jpi;
     DestinationArrivalTime := DestinationArrivalTime jpi;
     OriginDepartureTime := OriginDepartureTime jpi;
     DestinationDisplay := DestinationDisplay jpi |}.

Definition set_OriginStopRef (jpi : t) (ref : string) : t :=
  Build_t ref (DestinationStopRef jpi) (OriginStop jpi) (DestinationStop jpi)
    (OriginPlatform jpi) (DestinationPlatform jpi) (Distance jpi) (OriginArrivalTime jpi)
    (DestinationArrivalTime jpi) (OriginDepartureTime jpi) (DestinationDisplay jpi).

Definition set_DestinationStopRef (jpi : t) (ref : string) : t :=
  Build_t (OriginStopRef jpi) ref (OriginStop jpi) (DestinationStop jpi)
    (OriginPlatform jpi) (DestinationPlatform jpi) (Distance jpi) (OriginArrivalTime jpi)
    (DestinationArrivalTime jpi) (OriginDepartureTime jpi) (DestinationDisplay jpi).

Definition set_OriginArrivalTime (jpi : t) (at_ : time.Time) : t :=
  Build_t (OriginStopRef jpi) (DestinationStopRef jpi) (OriginStop jpi) (DestinationStop jpi)
    (OriginPlatform jpi) (DestinationPlatform jpi) (Distance jpi) at_
    (DestinationArrivalTime jpi) (OriginDepartureTime jpi) (DestinationDisplay jpi).

Definition set_DestinationArrivalTime (jpi : t) (at_ : time.Time) : t :=
  Build_t (OriginStopRef jpi) (DestinationStopRef jpi) (OriginStop jpi) (DestinationStop jpi)
    (OriginPlatform jpi) (DestinationPlatform jpi) (Distance jpi) (OriginArrivalTime jpi)
    at_ (OriginDepartureTime jpi) (DestinationDisplay jpi).

Definition set_OriginDepartureTime (jpi : t) (at_ : time.Time) : t :=
  Build_t (OriginStopRef jpi) (DestinationStopRef jpi) (OriginStop jpi) (DestinationStop jpi)
    (OriginPlatform jpi) (DestinationPlatform jpi) (Distance jpi) (OriginArrivalTime jpi)
    (DestinationArrivalTime jpi) at_ (DestinationDisplay jpi).

(** The filter of both stop lookups: the stop itself or one of its
    platforms carries the identifier. *)
Definition stop_query (ref : string) (s : Stop.t) : bool :=
  String.eqb (Stop.PrimaryIdentifier s) ref
  || existsb (fun p => String.eqb (Stop.PlatformPrimaryIdentifier p) ref) (Stop.Platforms s).

Section Resolve.

(** How the driver decodes a stop document into a stop that is already
    there; neither lookup guards against a populated field.  A stop field is
    kept as the stop it points to: a stop that one of these lookups allocates
    is held by the field it was decoded for and by no other. *)
Variable into : Stop.t -> Stop.t -> Stop.t.

Definition GetOriginStop (db : database.Database) (jpi : t) : t :=
  let stopsCollection := database.stops db in
  set_OriginStop jpi
    (database.DecodeInto into
       (database.FindOne (stop_query (OriginStopRef jpi)) stopsCollection)
       (OriginStop jpi)).

Definition GetDestinationStop (db : database.Database) (jpi : t) : t :=
  let stopsCollection := database.stops db in
  set_DestinationStop jpi
    (database.DecodeInto into
       (database.FindOne (stop_query (DestinationStopRef jpi)) stopsCollection)
       (DestinationStop jpi)).

Definition GetReferences (db : database.Database) (jpi : t) : t :=
  GetDestinationStop db (GetOriginStop db jpi).

End Resolve.

End JourneyPathItem.

Module Journey.

Record t := {
  PrimaryIdentifier : string;
  OtherIdentifiers : gmap string string;
  CreationDateTime : time.Time;
  ModificationDateTime : time.Time;
  ServiceRef : string;
  Service : option Service.t;
  OperatorRef : string;
  Operator : option Operator.t;
  Direction : string;
  DepartureTime : time.Time;
  DepartureTimezone : string;
  DestinationDisplay : string;
  Availability : option Availability.t;
  Path : list JourneyPathItem.t;
  RealtimeJourney : option RealtimeJourney.t }.


Definition set_Operator (j : t) (o : option Operator.t) : t :=
  {| PrimaryIdentifier := PrimaryIdentifier j;
     OtherIdentifiers := OtherIdentifiers j;
     CreationDateTime := CreationDateTime j;
     ModificationDateTime := ModificationDateTime j;
     ServiceRef := ServiceRef j;
     Service := Service j;
     OperatorRef := OperatorRef j;
     Operator := o;
     Direction := Direction j;
     DepartureTime := DepartureTime j;
     DepartureTimezone := DepartureTimezone j;
     DestinationDisplay := DestinationDisplay j;
     Availability := Availability j;
     Path := Path j;
     RealtimeJourney := RealtimeJourney j |}.

Definition set_Service (j : t) (s : option Service.t) : t :=
  {| PrimaryIdentifier := PrimaryIdentifier j;
     OtherIdentifiers := OtherIdentifiers j;
     CreationDateTime := CreationDateTime j;
     ModificationDateTime := ModificationDateTime j;
     ServiceRef := ServiceRef j;
     Service := s;
     OperatorRef := OperatorRef j;
     Operator := Operator j;
     Direction := Direction j;
     DepartureTime := DepartureTime j;
     DepartureTimezone := DepartureTimezone j;
     DestinationDisplay := DestinationDisplay j;
     Availability := Availability j;
     Path := Path j;
     RealtimeJourney := RealtimeJourney j |}.

Definition set_RealtimeJourney (j : t) (r : option RealtimeJourney.t) : t :=
  {| PrimaryIdentifier := PrimaryIdentifier j;
     OtherIdentifiers := OtherIdentifiers j;
     CreationDateTime := CreationDateTime j;
     ModificationDateTime := ModificationDateTime j;
     ServiceRef := ServiceRef j;
     Service := Service j;
     OperatorRef := OperatorRef j;
     Operator := Operator j;
     Direction := Direction j;
     DepartureTime := DepartureTime j;
     DepartureTimezone := DepartureTimezone j;
     DestinationDisplay := DestinationDisplay j;
     Availability := Availability j;
     Path := Path j;
     RealtimeJourney := r |}.

Definition set_OtherIdentifiers (j : t) (ids : gmap string string) : t :=
  Build_t (PrimaryIdentifier j) ids (CreationDateTime j) (ModificationDateTime j)
    (ServiceRef j) (Service j) (OperatorRef j) (Operator j) (Direction j) (DepartureTime j)
    (DepartureTimezone j) (DestinationDisplay j) (Availability j) (Path j)
    (RealtimeJourney j).

Definition set_CreationDateTime (j : t) (at_ : time.Time) : t :=
  Build_t (PrimaryIdentifier j) (OtherIdentifiers j) at_ (ModificationDateTime j)
    (ServiceRef j) (Service j) (OperatorRef j) (Operator j) (Direction j) (DepartureTime j)
    (DepartureTimezone j) (DestinationDisplay j) (Availability j) (Path j)
    (RealtimeJourney j).

Definition set_DepartureTime (j : t) (at_ : time.Time) : t :=
  Build_t (PrimaryIdentifier j) (OtherIdentifiers j) (CreationDateTime j)
    (ModificationDateTime j) (ServiceRef j) (Service j) (OperatorRef j) (Operator j)
    (Direction j) at_ (DepartureTimezone j) (DestinationDisplay j) (Availability j)
    (Path j) (RealtimeJourney j).

Definition set_Availability (j : t) (a : option Availability.t) : t :=
  Build_t (PrimaryIdentifier j) (OtherIdentifiers j) (CreationDateTime j)
    (ModificationDateTime j) (ServiceRef j) (Service j) (OperatorRef j) (Operator j)
    (Direction j) (DepartureTime j) (DepartureTimezone j) (DestinationDisplay j) a
    (Path j) (RealtimeJourney j).

Definition set_Path (j : t) (path : list JourneyPathItem.t) : t :=
  Build_t (PrimaryIdentifier j) (OtherIdentifiers j) (CreationDateTime j)
    (ModificationDateTime j) (ServiceRef j) (Service j) (OperatorRef j) (Operator j)
    (Direction j) (DepartureTime j) (DepartureTimezone j) (DestinationDisplay j)
    (Availability j) path (RealtimeJourney j).

(** The operator filter: [$or] of the primary identifier and of membership
    in the other identifiers. *)
Definition operator_query (ref : string) (o : Operator.t) : bool :=
  String.eqb (Operator.PrimaryIdentifier o) ref
  || existsb (fun i => String.eqb i ref) (Operator.OtherIdentifiers o).

(** Past the guard [j.Operator] is nil, so [Decode] fills a nil
    destination. *)
Definition GetOperator (db : database.Database) (j : t) : t :=
  match Operator j with
  | Some _ => j
  | None =>
      let operatorsCollection := database.operators db in
      let query := operator_query (OperatorRef j) in
      set_Operator j (database.Decode (database.FindOne query operatorsCollection))
  end.

(** The service filter: the primary identifier alone. *)
Definition service_query (ref : string) (s : Service.t) : bool :=
  String.eqb (Service.PrimaryIdentifier s) ref.

(** Past the guard [j.Service] is nil. *)
Definition GetService (db : database.Database) (j : t) : t :=
  match Service j with
  | Some _ => j
  | None =>
      let servicesCollection := database.services db in
      set_Service j
        (database.Decode (database.FindOne (service_query (ServiceRef j)) servicesCollection))
  end.

Definition GetReferences (db : database.Database) (j : t) : t :=
  GetService db (GetOperator db j).

Section Realtime.

(** Modelled from the spec: [GetActiveRealtimeJourneyCutOffDate] is declared
    in another file and reads the clock; it is a parameter here, the cutoff
    date for a reading [now] of the clock.  The spec gives the window it
    stands for, [now - ModificationTime <= cutoff]; a theorem that speaks of
    that window takes it as a hypothesis on this parameter. *)
Variable GetActiveRealtimeJourneyCutOffDate : time.Time -> time.Time.

(** [RealtimeJourney.IsActive], declared in another file. *)
Variable IsActive : RealtimeJourney.t -> bool.

(** The realtime filter: the journey's identifier and a modification time
    after ([$gt]) the cutoff date.  The store keeps whole milliseconds; for a
    stored time the comparison comes out the same whether or not the cutoff
    date is cut to milliseconds on its way into the query. *)
Definition realtime_query (id : string) (cutoffDate : time.Time) (r : RealtimeJourney.t)
  : bool :=
  String.eqb (RealtimeJourney.JourneyRef r) id
  && time.After (RealtimeJourney.ModificationDateTime r) cutoffDate.

Definition GetRealtimeJourney (db : database.Database) (now : time.Time) (j : t) : t :=
  let realtimeActiveCutoffDate := GetActiveRealtimeJourneyCutOffDate now in
  let realtimeJourneysCollection := database.realtime_journeys db in
  let realtimeJourney :=
    database.Decode
      (database.FindOne (realtime_query (PrimaryIdentifier j) realtimeActiveCutoffDate)
                        realtimeJourneysCollection) in
  match realtimeJourney with
  | Some r => if IsActive r then set_RealtimeJourney j (Some r) else j
  | None => j
  end.

End Realtime.

(** The three writes of one availability rule. *)
Definition write_rule (h : hash.Hash) (availabilityMatchRule : AvailabilityRule.t) : hash.Hash :=
  let h := hash.Write h (bytes_of_string (AvailabilityRule.Type_ availabilityMatchRule)) in
  let h := hash.Write h (bytes_of_string (AvailabilityRule.Value availabilityMatchRule)) in
  hash.Write h (bytes_of_string (AvailabilityRule.Description availabilityMatchRule)).

(** The five writes of one path item. *)
Definition write_path_item (h : hash.Hash) (pathItem : JourneyPathItem.t) : hash.Hash :=
  let h := hash.Write h (bytes_of_string (JourneyPathItem.OriginStopRef pathItem)) in
  let h := hash.Write h
    (bytes_of_string (time.GoString (JourneyPathItem.OriginArrivalTime pathItem))) in
  let h := hash.Write h
    (bytes_of_string (time.GoString (JourneyPathItem.OriginDepartureTime pathItem))) in
  let h := hash.Write h (bytes_of_string (JourneyPathItem.DestinationStopRef pathItem)) in
  hash.Write h
    (bytes_of_string (time.GoString (JourneyPathItem.DestinationArrivalTime pathItem))).

(** [GenerateFunctionalHash]; [None] is the nil dereference of
    [j.Availability] when the flag is set. *)
Definition GenerateFunctionalHash (j : t) (includeAvailabilityCondition : bool)
  : option string :=
  let h := hash.New in
  let h := hash.Write h (bytes_of_string (ServiceRef j)) in
  let h := hash.Write h (bytes_of_string (DestinationDisplay j)) in
  let h := hash.Write h (bytes_of_string (Direction j)) in
  let h := hash.Write h (bytes_of_string (time.String_ (DepartureTime j))) in
  h ← (if includeAvailabilityCondition then
         a ← Availability j;
         let rules := Availability.Match a ++ Availability.MatchSecondary a in
         let rules := rules ++ Availability.Exclude a in
         let rules := rules ++ Availability.Condition a in
         Some (fold_left write_rule rules h)
       else Some h);
  let h := fold_left write_path_item (Path j) h in
  Some (Sprintf_x (hash.Sum h)).

(** The loop state of [FlattenStops]. *)
Record flatten_state := {
  stops : list string;
  arrivalTimes : gmap string time.Time;
  departureTimes : gmap string time.Time;
  alreadySeen : gmap string bool }.

Definition flatten_step (mark : bool) (st : flatten_state) (pathItem : JourneyPathItem.t)
  : flatten_state :=
  let ref := JourneyPathItem.OriginStopRef pathItem in
  if negb (flag_of (alreadySeen st) ref) then
    {| stops := stops st ++ [ref];
       arrivalTimes := <[ref := JourneyPathItem.OriginArrivalTime pathItem]> (arrivalTimes st);
       departureTimes :=
         <[ref := JourneyPathItem.OriginDepartureTime pathItem]> (departureTimes st);
       alreadySeen := if mark then <[ref := true]> (alreadySeen st) else alreadySeen st |}
  else st.

(** [FlattenStops]: the loop over the path, then the last path item once
    more (it marks nothing as seen); [None] is the index panic of
    [j.Path[len(j.Path)-1]]. *)
Definition FlattenStops (j : t)
  : option (list string * gmap string time.Time * gmap string time.Time) :=
  let st := fold_left (flatten_step true) (Path j)
              {| stops := []; arrivalTimes := ∅; departureTimes := ∅; alreadySeen := ∅ |} in
  lastPathItem ← index (Path j) (Z.of_nat (length (Path j)) - 1);
  let st := flatten_step false st lastPathItem in
  Some (stops st, arrivalTimes st, departureTimes st).

End Journey.

(** [FilterIdenticalJourneys]: the loop with its two variables, then the
    function.  A panic of the fingerprint aborts the call. *)
Fixpoint filter_loop (includeAvailabilityCondition : bool) (journeys : list Journey.t)
    (filtered : list Journey.t) (matches : gmap string bool) : option (list Journey.t) :=
  match journeys with
  | [] => Some filtered
  | journey :: rest =>
      h ← Journey.GenerateFunctionalHash journey includeAvailabilityCondition;
      if negb (flag_of matches h)
      then filter_loop includeAvailabilityCondition rest (filtered ++ [journey]) (<[h := true]> matches)
      else filter_loop includeAvailabilityCondition rest filtered matches
  end.

Definition FilterIdenticalJourneys (journeys : list Journey.t)
    (includeAvailabilityCondition : bool) : option (list Journey.t) :=
  filter_loop includeAvailabilityCondition journeys [] ∅.

(** ** [Journey.GetDeepReferences]

    The goroutines of the call as a transition system.  The journey's [Path]
    is a slice of pointers: [ps] lists the addresses, the heap maps an
    address to the path item stored there (two entries of [ps] may be the same
    address).  The main goroutine walks [ps]; for each entry it adds one to
    the wait group and starts a goroutine on that address, then blocks in
    [wg.Wait] until the counter is zero.  A goroutine runs [GetOriginStop],
    [GetDestinationStop] and [wg.Done] on its address, one transition each. *)
Module GetDeepReferences.

Definition loc := nat.


















End GetDeepReferences.

(** ** Package [cachedresults]

    Modelled from the spec: the package is not part of the files modelled.  A
    cache entry holds a serialized result under a plain string key, with the
    time it may live; [Get] reads and decodes an entry and fails on a miss or
    on a value that does not decode, returning the zero value with the error;
    [Set] serializes and stores.  Entries that are present have not expired. *)
Module cachedresults.

(** Modelled from the spec: a cache entry, the serialized result and the time
    it may live. *)
Record Entry := { value : list Z; ttl : time.Duration }.

(** Modelled from the spec: the two ways a cache read fails. *)
Inductive error : Type :=
| ErrMiss
| ErrDecode.

Section Codec.

Variable encode : list Service.t -> list Z.
Variable decode : list Z -> option (list Service.t).

(** Modelled from the spec: [Get] reads the entry under the key and decodes
    it; a miss and a value that does not decode are errors, returned with the
    zero value. *)
Definition Get (c : gmap string Entry) (key : string)
  : list Service.t * option error :=
  match c !! key with
  | None => ([], Some ErrMiss)
  | Some e =>
      match decode (value e) with
      | Some v => (v, None)
      | None => ([], Some ErrDecode)
      end
  end.

(** Modelled from the spec: [Set] stores the serialized value under the key
    with its time to live. *)
Definition Set_ (c : gmap string Entry) (key : string) (v : list Service.t)
    (d : time.Duration) : gmap string Entry :=
  <[key := {| value := encode v; ttl := d |}]> c.

End Codec.

End cachedresults.

(** ** Package [databaselookup]: [ServicesByStopQuery]

    The call threads the cache and a log of the store operations it
    performs. *)
Module databaselookup.

(** Modelled from the spec: [query.ServicesByStop] is declared elsewhere; the
    query names a stop. *)
Record ServicesByStop := { Stop : Stop.t }.

Inductive store_op : Type :=
| FindJourneys (allStopIDs : list string)
| FindOneService (ref : string).

Record world := {
  CachedResults : gmap string cachedresults.Entry;
  store_log : list store_op }.

(** The journey filter: some path item starts, or some path item ends, at
    one of the identifiers. *)
Definition journeys_filter (allStopIDs : list string) (d : database.JourneyDocument) : bool :=
  existsb (fun leg => existsb (String.eqb (fst leg)) allStopIDs) (database.path d)
  || existsb (fun leg => existsb (String.eqb (snd leg)) allStopIDs) (database.path d).

(** The service projection drops the other identifiers (and the times and
    routes, which [Service.t] does not carry). *)
Definition serviceOpts (s : Service.t) : Service.t :=
  {| Service.PrimaryIdentifier := Service.PrimaryIdentifier s;
     Service.OtherIdentifiers := [];
     Service.ServiceName := Service.ServiceName s |}.

Record cursor_state := {
  serviceFound : gmap string bool;
  services : list Service.t;
  log : list store_op }.

Section Query.

Variable encode : list Service.t -> list Z.
Variable decode : list Z -> option (list Service.t).

(** [transforms.Transform], declared in another package. *)
Variable Transform : Service.t -> Z -> Service.t.

Definition cursor_step (db : database.Database) (st : cursor_state)
    (journey : database.JourneyDocument) : cursor_state :=
  let ref := database.serviceref journey in
  if negb (flag_of (serviceFound st) ref) then
    let service :=
      database.Decode
        (option_map serviceOpts
           (database.FindOne (Journey.service_query ref) (database.services db))) in
    {| serviceFound := <[ref := true]> (serviceFound st);
       services := match service with
                   | Some s => services st ++ [Transform s 1]
                   | None => services st
                   end;
       log := log st ++ [FindOneService ref] |}
  else st.

Definition ServicesByStopQuery (db : database.Database) (w : world) (q : ServicesByStop)
  : (list Service.t * option cachedresults.error) * world :=
  let cacheItemPath :=
    ("cachedresults/servicesbystopquery/" ++ Stop.PrimaryIdentifier (Stop q))%string in
  let '(services0, err) := cachedresults.Get decode (CachedResults w) cacheItemPath in
  match err with
  | None => ((services0, None), w)
  | Some _ =>
      let allStopIDs := Stop.GetAllStopIDs (Stop q) in
      let cursor := database.Find (journeys_filter allStopIDs) (database.journeys db) in
      let st := fold_left (cursor_step db) cursor
                  {| serviceFound := ∅; services := services0;
                     log := store_log w ++ [FindJourneys allStopIDs] |} in
      ((services st, None),
       {| CachedResults :=
            cachedresults.Set_ encode (CachedResults w) cacheItemPath (services st)
                               (24 * time.Hour);
          store_log := log st |})
  end.

End Query.

End databaselookup.

(** ** The authoritative computation as the specification words it

    The services touching a stop: the stop's own identifier plus all platform
    identifiers; the journeys whose path touches any of them, their service
    references only; the distinct references, in the order they are first
    met; each service fetched by its primary identifier under the restricted
    projection and transformed, references without a service skipped. *)
Module Authoritative.

Fixpoint distinct (seen : list string) (refs : list string) : list string :=
  match refs with
  | [] => []
  | ref :: rest =>
      if decide (ref ∈ seen) then distinct seen rest
      else ref :: distinct (ref :: seen) rest
  end.

Definition touches (ids : list string) (d : database.JourneyDocument) : Prop :=
  exists origin destination,
    (origin, destination) ∈ database.path d /\ (origin ∈ ids \/ destination ∈ ids).

Definition fetch (Transform : Service.t -> Z -> Service.t) (db : database.Database)
    (ref : string) : option Service.t :=
  (fun s => Transform (databaselookup.serviceOpts s) 1)
    <$> List.find (fun s => bool_decide (Service.PrimaryIdentifier s = ref))
                  (database.services db).

Definition references (db : database.Database) (stop : Stop.t) : list string :=
  distinct []
    (database.serviceref
       <$> List.filter (databaselookup.journeys_filter (Stop.GetAllStopIDs stop))
                       (database.journeys db)).

Definition services_touching (Transform : Service.t -> Z -> Service.t)
    (db : database.Database) (stop : Stop.t) : list Service.t :=
  omap (fetch Transform db) (references db stop).

End Authoritative.

(** ** The journeys of the specification's de-duplication scenarios *)
Module Fixtures.

Local Open Scope string_scope.

(** 2024-03-04 08:00:00 UTC and the calls after it. *)
Definition at_0800 : time.Time := {| time.sec := 1709539200; time.nsec := 0; time.loc := time.UTC |}.
Definition at_0810 : time.Time := time.Add at_0800 (10 * time.Minute).
Definition at_0820 : time.Time := time.Add at_0800 (20 * time.Minute).
Definition created_1 : time.Time := {| time.sec := 1700000000; time.nsec := 0; time.loc := time.UTC |}.
Definition created_2 : time.Time := {| time.sec := 1700086400; time.nsec := 0; time.loc := time.UTC |}.

Definition leg (origin destination : string) (departs arrives : time.Time)
  : JourneyPathItem.t :=
  {| JourneyPathItem.OriginStopRef := origin;
     JourneyPathItem.DestinationStopRef := destination;
     JourneyPathItem.OriginStop := None;
     JourneyPathItem.DestinationStop := None;
     JourneyPathItem.OriginPlatform := "";
     JourneyPathItem.DestinationPlatform := "";
     JourneyPathItem.Distance := 0;
     JourneyPathItem.OriginArrivalTime := departs;
     JourneyPathItem.DestinationArrivalTime := arrives;
     JourneyPathItem.OriginDepartureTime := departs;
     JourneyPathItem.DestinationDisplay := "" |}.

Definition rule (ty value : string) : AvailabilityRule.t :=
  {| AvailabilityRule.Type_ := ty;
     AvailabilityRule.Value := value;
     AvailabilityRule.Description := "" |}.

Definition weekdays (condition : list AvailabilityRule.t) : Availability.t :=
  {| Availability.Match := [rule "DayOfWeek" "Monday"];
     Availability.MatchSecondary := [];
     Availability.Exclude := [];
     Availability.Condition := condition |}.

Definition journey (id : string) (created departs : time.Time)
    (availability : option Availability.t) (path : list JourneyPathItem.t) : Journey.t :=
  {| Journey.PrimaryIdentifier := id;
     Journey.OtherIdentifiers := ∅;
     Journey.CreationDateTime := created;
     Journey.ModificationDateTime := created_2;
     Journey.ServiceRef := "SVC1";
     Journey.Service := None;
     Journey.OperatorRef := "OP1";
     Journey.Operator := None;
     Journey.Direction := "outbound";
     Journey.DepartureTime := departs;
     Journey.DepartureTimezone := "Europe/London";
     Journey.DestinationDisplay := "Town Centre";
     Journey.Availability := availability;
     Journey.Path := path;
     Journey.RealtimeJourney := None |}.

Definition path_ABC : list JourneyPathItem.t :=
  [leg "A" "B" at_0800 at_0810; leg "B" "C" at_0810 at_0820].

Definition J1 : Journey.t :=
  journey "J" created_1 at_0800 (Some (weekdays [rule "Date" "2024-03-04"])) path_ABC.

(** [J1] but for the creation time. *)
Definition J2 : Journey.t :=
  journey "J" created_2 at_0800 (Some (weekdays [rule "Date" "2024-03-04"])) path_ABC.

(** [J1] but for one rule of [Availability.Condition]. *)
Definition J3 : Journey.t :=
  journey "J" created_1 at_0800 (Some (weekdays [rule "Date" "2024-03-05"])) path_ABC.

(** [J1] with the bytes of its condition cut differently into type and
    value. *)
Definition J4 : Journey.t :=
  journey "J" created_1 at_0800 (Some (weekdays [rule "Date2024" "-03-04"])) path_ABC.

(** A journey with one rule in each of the four rule lists. *)
Definition four_lists (m s e c : AvailabilityRule.t) : Availability.t :=
  {| Availability.Match := [m];
     Availability.MatchSecondary := [s];
     Availability.Exclude := [e];
     Availability.Condition := [c] |}.

Definition r_match : AvailabilityRule.t := rule "DayOfWeek" "Monday".
Definition r_secondary : AvailabilityRule.t := rule "DayOfWeek" "Tuesday".
Definition r_exclude : AvailabilityRule.t := rule "Date" "2024-12-25".
Definition r_condition : AvailabilityRule.t := rule "BankHoliday" "None".

Definition J5 : Journey.t :=
  journey "J" created_1 at_0800
    (Some (four_lists r_match r_secondary r_exclude r_condition)) path_ABC.

(** [J1] with its service reference, destination display and direction
    replaced. *)
Definition respelled (service destination direction : string) : Journey.t :=
  Journey.Build_t (Journey.PrimaryIdentifier J1) (Journey.OtherIdentifiers J1)
    (Journey.CreationDateTime J1) (Journey.ModificationDateTime J1) service
    (Journey.Service J1) (Journey.OperatorRef J1) (Journey.Operator J1) direction
    (Journey.DepartureTime J1) (Journey.DepartureTimezone J1) destination
    (Journey.Availability J1) (Journey.Path J1) (Journey.RealtimeJourney J1).

(** A journey that carries no availability at all. *)
Definition J_unconditional : Journey.t :=
  journey "J" created_1 at_0800 None path_ABC.

(** Stores for the overlay and resolver scenarios. *)
Definition store (operators : list Operator.t) (services : list Service.t)
    (realtime : list RealtimeJourney.t) : database.Database :=
  {| database.operators := operators;
     database.services := services;
     database.stops := [];
     database.realtime_journeys := realtime;
     database.journeys := [] |}.

Definition five_minutes : time.Duration := 5 * time.Minute.

(** Modelled from the spec: a cutoff date for a window of five minutes.  The
    query asks for a modification time after the cutoff date and the spec's
    window is [now - ModificationTime <= cutoff], so the cutoff date is the
    last instant before [now - cutoff]. *)
Definition cutoff_date (now : time.Time) : time.Time :=
  time.Add now (- five_minutes - 1).

Definition always_active (r : RealtimeJourney.t) : bool := true.

(** A realtime record for journey [J], modified [age] before 08:00. *)
Definition tracked (id : string) (age : time.Duration) : RealtimeJourney.t :=
  {| RealtimeJourney.PrimaryIdentifier := id;
     RealtimeJourney.JourneyRef := "J";
     RealtimeJourney.ModificationDateTime := time.Add at_0800 (- age) |}.

Definition operator_OP : Operator.t :=
  {| Operator.PrimaryIdentifier := "GB:NOC:OP"; Operator.OtherIdentifiers := ["OP1"; "OP"] |}.

Definition service_SVC : Service.t :=
  {| Service.PrimaryIdentifier := "GB:SVC:1";
     Service.OtherIdentifiers := ["SVC1"];
     Service.ServiceName := "1" |}.

(** A store for the services-by-stop scenario: three journeys calling at stop
    [A] or its platform [A1], on services [GB:SVC:1] (twice) and [GB:SVC:9]
    (not in the store), and one journey elsewhere. *)
Definition stop_A : Stop.t :=
  {| Stop.PrimaryIdentifier := "A";
     Stop.Platforms := [{| Stop.PlatformPrimaryIdentifier := "A1" |}] |}.

Definition lookup_store : database.Database :=
  {| database.operators := [];
     database.services := [service_SVC];
     database.stops := [stop_A];
     database.realtime_journeys := [];
     database.journeys :=
       [ {| database.serviceref := "GB:SVC:1"; database.path := [("A", "B"); ("B", "C")] |};
         {| database.serviceref := "GB:SVC:9"; database.path := [("Z", "A1")] |};
         {| database.serviceref := "GB:SVC:2"; database.path := [("B", "C")] |};
         {| database.serviceref := "GB:SVC:1"; database.path := [("A1", "B")] |} ] |}.

(** A codec that stores the service names, one byte each, and so decodes no
    entry back into services. *)
Definition encode_names (v : list Service.t) : list Z :=
  map (fun s => Z.of_nat (String.length (Service.ServiceName s))) v.

Definition decode_nothing (bs : list Z) : option (list Service.t) := None.

(** A codec that decodes every entry into the one service of the store. *)
Definition decode_one (bs : list Z) : option (list Service.t) :=
  Some [databaselookup.serviceOpts service_SVC].

Definition Transform_id (s : Service.t) (depth : Z) : Service.t := s.

Definition cold : databaselookup.world :=
  {| databaselookup.CachedResults := ∅; databaselookup.store_log := [] |}.






End Fixtures.

(** ** The fingerprint as the specification words it

    The byte stream the digest is taken of, field after field, with nothing
    between the fields. *)
Module Fingerprint.

Definition header (j : Journey.t) : list Z :=
  bytes_of_string (Journey.ServiceRef j)
  ++ bytes_of_string (Journey.DestinationDisplay j)
  ++ bytes_of_string (Journey.Direction j)
  ++ bytes_of_string (time.String_ (Journey.DepartureTime j)).

Definition rule (r : AvailabilityRule.t) : list Z :=
  bytes_of_string (AvailabilityRule.Type_ r)
  ++ bytes_of_string (AvailabilityRule.Value r)
  ++ bytes_of_string (AvailabilityRule.Description r).

Definition rules (a : Availability.t) : list Z :=
  flat_map rule (Availability.Match a)
  ++ flat_map rule (Availability.MatchSecondary a)
  ++ flat_map rule (Availability.Exclude a)
  ++ flat_map rule (Availability.Condition a).

Definition path_item (p : JourneyPathItem.t) : list Z :=
  bytes_of_string (JourneyPathItem.OriginStopRef p)
  ++ bytes_of_string (time.GoString (JourneyPathItem.OriginArrivalTime p))
  ++ bytes_of_string (time.GoString (JourneyPathItem.OriginDepartureTime p))
  ++ bytes_of_string (JourneyPathItem.DestinationStopRef p)
  ++ bytes_of_string (time.GoString (JourneyPathItem.DestinationArrivalTime p)).

Definition digest (stream : list Z) : string := Sprintf_x (Sha256.Sum256 stream).

(** The fingerprint of a journey under a flag, [None] when computing it
    panics. *)
Definition digest_of (includeAvailabilityCondition : bool) (j : Journey.t) : option string :=
  Journey.GenerateFunctionalHash j includeAvailabilityCondition.

(** Position [i] of [js] holds the first journey with its fingerprint. *)
Definition first_at (flag : bool) (js : list Journey.t) (i : nat) : Prop :=
  exists j, js !! i = Some j /\ digest_of flag j ∉ (digest_of flag <$> take i js).

(** What [FilterIdenticalJourneys] has established after the journeys
    [seen]: [filtered] are the journeys at the positions [kept], which are
    the first positions of their fingerprints, in input order; [matches]
    holds the fingerprints met so far. *)
Definition retained (flag : bool) (seen filtered : list Journey.t)
    (matches : gmap string bool) (kept : list nat) : Prop :=
  (forall h, flag_of matches h = true <-> Some h ∈ (digest_of flag <$> filtered))
  /\ (forall j, j ∈ seen -> digest_of flag j ∈ (digest_of flag <$> filtered))
  /\ NoDup (digest_of flag <$> filtered)
  /\ Forall2 (fun i j => seen !! i = Some j) kept filtered
  /\ StronglySorted lt kept
  /\ (forall i, i ∈ kept <-> first_at flag seen i).

End Fingerprint.

(** ** [StopGroup.GetStops]

    The stops collection as this query meets it: of each document the
    associated identifiers the filter reads
    ([associations.associatedidentifier]) and the stop the document decodes
    into, [None] for a document that does not decode. *)
Module StopGroup.

Record StopDocument := {
  associatedidentifiers : list string;
  decoded : option Stop.t }.

Record t := {
  Identifier : string;
  CreationDateTime : time.Time;
  ModificationDateTime : time.Time;
  Name : string;
  Type_ : string;
  Status : string;
  Stops : list Stop.t }.

Definition set_Stops (stopGroup : t) (stops : list Stop.t) : t :=
  {| Identifier := Identifier stopGroup;
     CreationDateTime := CreationDateTime stopGroup;
     ModificationDateTime := ModificationDateTime stopGroup;
     Name := Name stopGroup;
     Type_ := Type_ stopGroup;
     Status := Status stopGroup;
     Stops := stops |}.

(** The filter: some association of the document names the identifier. *)
Definition associated (id : string) (d : StopDocument) : bool :=
  existsb (fun a => String.eqb a id) (associatedidentifiers d).

(** The cursor loop; [None] is [log.Fatal] on a document that does not
    decode, which ends the process. *)
Fixpoint cursor_loop (cursor : list StopDocument) (stopGroup : t) : option t :=
  match cursor with
  | [] => Some stopGroup
  | d :: rest =>
      stop ← decoded d;
      cursor_loop rest (set_Stops stopGroup (Stops stopGroup ++ [stop]))
  end.

Definition GetStops (stopsCollection : list StopDocument) (stopGroup : t) : option t :=
  let cursor := database.Find (associated (Identifier stopGroup)) stopsCollection in
  cursor_loop cursor stopGroup.

End StopGroup.

(** ** [strconv.Atoi]

    An optional sign and one or more decimal digits, the value inside the
    range of a 64-bit [int]; anything else is an error ([None]). *)
Module strconv.

Definition is_digit (c : ascii) : bool :=
  let n := Z.of_N (N_of_ascii c) in (48 <=? n) && (n <=? 57).

Fixpoint digits_value (s : string) (acc : Z) : option Z :=
  match s with
  | EmptyString => Some acc
  | String c rest =>
      if is_digit c then digits_value rest (acc * 10 + (Z.of_N (N_of_ascii c) - 48))
      else None
  end.

Definition Atoi (s : string) : option Z :=
  match s with
  | EmptyString => None
  | String c rest =>
      let signed := Ascii.eqb c "-" || Ascii.eqb c "+" in
      let body := if signed then rest else s in
      match body with
      | EmptyString => None
      | _ =>
          n ← digits_value body 0;
          let n := if Ascii.eqb c "-" then - n else n in
          if (- 2 ^ 63 <=? n) && (n <=? 2 ^ 63 - 1) then Some n else None
      end
  end.

End strconv.

(** ** Package [redis_client]: [Connect]

    The environment is a map from names to values, a name that is not set
    reading as the empty string.  The server is a parameter: [Ping] gives the
    error of the ping, if any, for the options of a client. *)
Module redis_client.

Record Options := { Addr : string; Password : string; DB : Z }.

Inductive error : Type :=
| AtoiError (input : string)
| PingError (message : string).

Definition defaultConnectionAddress : string := "localhost:6379".
Definition defaultConnectionPassword : string := "".
Definition defaultDatabase : Z := 0.

Definition getenv (env : gmap string string) (name : string) : string :=
  default EmptyString (env !! name).

Section Connect.

Variable Ping : Options -> option string.

(** [Connect] from the environment and the package variable [Client]; it
    returns the new value of [Client] and the error. *)
Definition Connect (env : gmap string string) (Client : option Options)
  : option Options * option error :=
  let address := defaultConnectionAddress in
  let password := defaultConnectionPassword in
  let database := defaultDatabase in
  let address :=
    if negb (String.eqb (getenv env "BRITBUS_REDIS_ADDRESS") "")
    then getenv env "BRITBUS_REDIS_ADDRESS" else address in
  let password :=
    if negb (String.eqb (getenv env "BRITBUS_REDIS_PASSWORD") "")
    then getenv env "BRITBUS_REDIS_PASSWORD" else password in
  let parsed :=
    if negb (String.eqb (getenv env "BRITBUS_REDIS_DATABASE") "") then
      match strconv.Atoi (getenv env "BRITBUS_REDIS_DATABASE") with
      | Some n => inl n
      | None => inr (AtoiError (getenv env "BRITBUS_REDIS_DATABASE"))
      end
    else inl database in
  match parsed with
  | inr err => (Client, Some err)
  | inl database =>
      let client :=
        if String.eqb password "" then
          {| Addr := address; Password := EmptyString; DB := database |}
        else
          {| Addr := address; Password := password; DB := database |} in
      (Some client, PingError <$> Ping client)
  end.

End Connect.

End redis_client.

(** ** [net/http] as the download handlers use it

    A request with its URL's raw query and its header.  [URL.Query] parses
    the raw query into a new set of values on every call, so a change made to
    what it returned is not a change of the request. *)
Module http.

Record Request := {
  URL_RawQuery : string;
  Header : gmap string (list string) }.

(** [Header.Set]; both keys the handlers use are in canonical form. *)
Definition Header_Set (r : Request) (key value : string) : Request :=
  {| URL_RawQuery := URL_RawQuery r; Header := <[key := [value]]> (Header r) |}.

(** [Values.Add]. *)
Definition Values_Add (v : gmap string (list string)) (key value : string)
  : gmap string (list string) :=
  <[key := default [] (v !! key) ++ [value]]> v.

End http.

(** ** Package [manager]: the registered data sets

    The [datasets] types are declared in another package; they are modelled
    from the fields and constants the registry uses.  A download handler
    either ends the process ([Fatal], from [log.Fatal]) or returns with the
    request as it has left it. *)
Module datasets.

Inductive DataSetFormat : Type :=
| DataSetFormatTravelineNOC
| DataSetFormatNaPTAN
| DataSetFormatNationalRailTOC
| DataSetFormatNetworkRailCorpus
| DataSetFormatSiriVM
| DataSetFormatGTFSRealtime
| DataSetFormatGTFSSchedule
| DataSetFormatCIF.

Inductive BundleFormat : Type :=
| BundleFormatNone
| BundleFormatGZ
| BundleFormatZIP.

(** [ImportDestinationUnset] is the zero value of the field. *)
Inductive ImportDestination : Type :=
| ImportDestinationUnset
| ImportDestinationRealtimeQueue.

Record Provider := { Name : string; Website : string }.

Record SupportedObjects := {
  Operators : bool;
  OperatorGroups : bool;
  Stops : bool;
  StopGroups : bool;
  Services : bool;
  Journeys : bool;
  RealtimeJourneys : bool }.

Definition no_objects : SupportedObjects :=
  {| Operators := false; OperatorGroups := false; Stops := false; StopGroups := false;
     Services := false; Journeys := false; RealtimeJourneys := false |}.

Inductive outcome : Type :=
| Fatal (message : string)
| Done (r : http.Request).

Record DataSet := {
  Identifier : string;
  Format : DataSetFormat;
  DataSetProvider : Provider;
  Source : string;
  UnpackBundle : BundleFormat;
  SupportedObjects_ : SupportedObjects;
  ImportDestination_ : ImportDestination;
  LinkedDataset : string;
  DownloadHandler : option (gmap string string -> http.Request -> outcome) }.

End datasets.

Module manager.

Definition getenv (env : gmap string string) (name : string) : string :=
  default EmptyString (env !! name).

Section Registry.

(** [url.ParseQuery], behind [URL.Query]. *)
Variable ParseQuery : string -> gmap string (list string).

(** The credentials of basic authentication as [SetBasicAuth] encodes
    them. *)
Variable basicAuth : string -> string -> string.

(** The authentication request of [nationalRailLogin]: a token (empty when
    the answer holds none), or the message of the failure that ends the
    process. *)
Variable authenticate : string -> string -> string + string.

Definition nationalRailLogin (env : gmap string string) : string + string :=
  if String.eqb (getenv env "TRAVIGO_NATIONALRAIL_USERNAME") "" then
    inr "TRAVIGO_NATIONALRAIL_USERNAME must be set"%string
  else if String.eqb (getenv env "TRAVIGO_NATIONALRAIL_PASSWORD") "" then
    inr "TRAVIGO_NATIONALRAIL_PASSWORD must be set"%string
  else
    authenticate (getenv env "TRAVIGO_NATIONALRAIL_USERNAME")
                 (getenv env "TRAVIGO_NATIONALRAIL_PASSWORD").

(** The handler of the two National Rail data sets. *)
Definition national_rail_handler (env : gmap string string) (r : http.Request)
  : datasets.outcome :=
  match nationalRailLogin env with
  | inr message => datasets.Fatal message
  | inl token => datasets.Done (http.Header_Set r "X-Auth-Token" token)
  end.

(** The handler of the Network Rail data set. *)
Definition network_rail_handler (env : gmap string string) (r : http.Request)
  : datasets.outcome :=
  if String.eqb (getenv env "TRAVIGO_NETWORKRAIL_USERNAME") "" then
    datasets.Fatal "TRAVIGO_NETWORKRAIL_USERNAME must be set"
  else if String.eqb (getenv env "TRAVIGO_NETWORKRAIL_PASSWORD") "" then
    datasets.Fatal "TRAVIGO_NETWORKRAIL_PASSWORD must be set"
  else
    datasets.Done
      (http.Header_Set r "Authorization"
         ("Basic " ++ basicAuth (getenv env "TRAVIGO_NETWORKRAIL_USERNAME")
                                (getenv env "TRAVIGO_NETWORKRAIL_PASSWORD"))%string).

(** The handler of the three BODS data sets: the key is added to the values
    [r.URL.Query()] returns, which are then dropped. *)
Definition bods_handler (env : gmap string string) (r : http.Request)
  : datasets.outcome :=
  if String.eqb (getenv env "TRAVIGO_BODS_API_KEY") "" then
    datasets.Fatal "TRAVIGO_BODS_API_KEY must be set"
  else
    let query := ParseQuery (http.URL_RawQuery r) in
    let added := http.Values_Add query "api_key" (getenv env "TRAVIGO_BODS_API_KEY") in
    datasets.Done r.

Definition GetRegisteredDataSets : list datasets.DataSet :=
  [ {| datasets.Identifier := "gb-traveline-noc";
       datasets.Format := datasets.DataSetFormatTravelineNOC;
       datasets.DataSetProvider :=
         {| datasets.Name := "Traveline";
            datasets.Website := "https://www.travelinedata.org.uk/" |};
       datasets.Source := "https://www.travelinedata.org.uk/noc/api/1.0/nocrecords.xml";
       datasets.UnpackBundle := datasets.BundleFormatNone;
       datasets.SupportedObjects_ :=
         {| datasets.Operators := true; datasets.OperatorGroups := true;
            datasets.Stops := false; datasets.StopGroups := false;
            datasets.Services := false; datasets.Journeys := false;
            datasets.RealtimeJourneys := false |};
       datasets.ImportDestination_ := datasets.ImportDestinationUnset;
       datasets.LinkedDataset := "";
       datasets.DownloadHandler := None |};
    {| datasets.Identifier := "gb-dft-naptan";
       datasets.Format := datasets.DataSetFormatNaPTAN;
       datasets.DataSetProvider :=
         {| datasets.Name := "Department for Transport";
            datasets.Website :=
              "https://www.gov.uk/government/organisations/department-for-transport" |};
       datasets.Source := "https://naptan.api.dft.gov.uk/v1/access-nodes?dataFormat=xml";
       datasets.UnpackBundle := datasets.BundleFormatNone;
       datasets.SupportedObjects_ :=
         {| datasets.Operators := false; datasets.OperatorGroups := false;
            datasets.Stops := true; datasets.StopGroups := true;
            datasets.Services := false; datasets.Journeys := false;
            datasets.RealtimeJourneys := false |};
       datasets.ImportDestination_ := datasets.ImportDestinationUnset;
       datasets.LinkedDataset := "";
       datasets.DownloadHandler := None |};
    {| datasets.Identifier := "gb-nationalrail-toc";
       datasets.Format := datasets.DataSetFormatNationalRailTOC;
       datasets.DataSetProvider :=
         {| datasets.Name := "National Rail";
            datasets.Website := "https://nationalrail.co.uk" |};
       datasets.Source := "https://opendata.nationalrail.co.uk/api/staticfeeds/4.0/tocs";
       datasets.UnpackBundle := datasets.BundleFormatNone;
       datasets.SupportedObjects_ :=
         {| datasets.Operators := true; datasets.OperatorGroups := false;
            datasets.Stops := false; datasets.StopGroups := false;
            datasets.Services := true; datasets.Journeys := false;
            datasets.RealtimeJourneys := false |};
       datasets.ImportDestination_ := datasets.ImportDestinationUnset;
       datasets.LinkedDataset := "";
       datasets.DownloadHandler := Some national_rail_handler |};
    {| datasets.Identifier := "gb-networkrail-corpus";
       datasets.Format := datasets.DataSetFormatNetworkRailCorpus;
       datasets.DataSetProvider :=
         {| datasets.Name := "Network Rail";
            datasets.Website := "https://networkrail.co.uk" |};
       datasets.Source :=
         "https://publicdatafeeds.networkrail.co.uk/ntrod/SupportingFileAuthenticate?type=CORPUS";
       datasets.UnpackBundle := datasets.BundleFormatGZ;
       datasets.SupportedObjects_ :=
         {| datasets.Operators := false; datasets.OperatorGroups := false;
            datasets.Stops := true; datasets.StopGroups := false;
            datasets.Services := false; datasets.Journeys := false;
            datasets.RealtimeJourneys := false |};
       datasets.ImportDestination_ := datasets.ImportDestinationUnset;
       datasets.LinkedDataset := "";
       datasets.DownloadHandler := Some network_rail_handler |};
    {| datasets.Identifier := "gb-dft-bods-sirivm-all";
       datasets.Format := datasets.DataSetFormatSiriVM;
       datasets.DataSetProvider :=
         {| datasets.Name := "Department for Transport";
            datasets.Website :=
              "https://www.gov.uk/government/organisations/department-for-transport" |};
       datasets.Source := "https://data.bus-data.dft.gov.uk/avl/download/bulk_archive";
       datasets.UnpackBundle := datasets.BundleFormatZIP;
       datasets.SupportedObjects_ :=
         {| datasets.Operators := false; datasets.OperatorGroups := false;
            datasets.Stops := false; datasets.StopGroups := false;
            datasets.Services := false; datasets.Journeys := false;
            datasets.RealtimeJourneys := true |};
       datasets.ImportDestination_ := datasets.ImportDestinationRealtimeQueue;
       datasets.LinkedDataset := "";
       datasets.DownloadHandler := Some bods_handler |};
    {| datasets.Identifier := "gb-dft-bods-gtfs-realtime";
       datasets.Format := datasets.DataSetFormatGTFSRealtime;
       datasets.DataSetProvider :=
         {| datasets.Name := "Department for Transport";
            datasets.Website :=
              "https://www.gov.uk/government/organisations/department-for-transport" |};
       datasets.Source := "https://data.bus-data.dft.gov.uk/avl/download/gtfsrt";
       datasets.UnpackBundle := datasets.BundleFormatZIP;
       datasets.SupportedObjects_ :=
         {| datasets.Operators := false; datasets.OperatorGroups := false;
            datasets.Stops := false; datasets.StopGroups := false;
            datasets.Services := false; datasets.Journeys := false;
            datasets.RealtimeJourneys := true |};
       datasets.ImportDestination_ := datasets.ImportDestinationRealtimeQueue;
       datasets.LinkedDataset := "gb-dft-bods-gtfs-schedule";
       datasets.DownloadHandler := Some bods_handler |};
    {| datasets.Identifier := "gb-dft-bods-gtfs-schedule";
       datasets.Format := datasets.DataSetFormatGTFSSchedule;
       datasets.DataSetProvider :=
         {| datasets.Name := "Department for Transport";
            datasets.Website :=
              "https://www.gov.uk/government/organisations/department-for-transport" |};
       datasets.Source :=
         "https://data.bus-data.dft.gov.uk/timetable/download/gtfs-file/all/";
       datasets.UnpackBundle := datasets.BundleFormatNone;
       datasets.SupportedObjects_ :=
         {| datasets.Operators := false; datasets.OperatorGroups := false;
            datasets.Stops := false; datasets.StopGroups := false;
            datasets.Services := true; datasets.Journeys := true;
            datasets.RealtimeJourneys := false |};
       datasets.ImportDestination_ := datasets.ImportDestinationUnset;
       datasets.LinkedDataset := "";
       datasets.DownloadHandler := Some bods_handler |};
    {| datasets.Identifier := "gb-nationalrail-timetable";
       datasets.Format := datasets.DataSetFormatCIF;
       datasets.DataSetProvider :=
         {| datasets.Name := "National Rail";
            datasets.Website := "https://nationalrail.co.uk" |};
       datasets.Source :=
         "https://opendata.nationalrail.co.uk/api/staticfeeds/3.0/timetable";
       datasets.UnpackBundle := datasets.BundleFormatNone;
       datasets.SupportedObjects_ :=
         {| datasets.Operators := false; datasets.OperatorGroups := false;
            datasets.Stops := false; datasets.StopGroups := false;
            datasets.Services := true; datasets.Journeys := true;
            datasets.RealtimeJourneys := false |};
       datasets.ImportDestination_ := datasets.ImportDestinationUnset;
       datasets.LinkedDataset := "";
       datasets.DownloadHandler := Some national_rail_handler |};
    {| datasets.Identifier := "ie-gtfs-schedule";
       datasets.Format := datasets.DataSetFormatGTFSSchedule;
       datasets.DataSetProvider :=
         {| datasets.Name := "Transport for Ireland";
            datasets.Website := "https://www.transportforireland.ie" |};
       datasets.Source :=
         "https://www.transportforireland.ie/transitData/Data/GTFS_Realtime.zip";
       datasets.UnpackBundle := datasets.BundleFormatNone;
       datasets.SupportedObjects_ :=
         {| datasets.Operators := true; datasets.OperatorGroups := false;
            datasets.Stops := true; datasets.StopGroups := false;
            datasets.Services := true; datasets.Journeys := true;
            datasets.RealtimeJourneys := false |};
       datasets.ImportDestination_ := datasets.ImportDestinationUnset;
       datasets.LinkedDataset := "";
       datasets.DownloadHandler := None |} ]%string.

End Registry.

End manager.

(** ** Sample data for the further packages *)
Module Samples.

(** A stops collection of three documents: the first and the third are
    associated with the group, the second with another one. *)
Definition stop_B : Stop.t :=
  {| Stop.PrimaryIdentifier := "B"; Stop.Platforms := [] |}.

Definition stops_collection : list StopGroup.StopDocument :=
  [ {| StopGroup.associatedidentifiers := ["GB:STOPGRP:1"; "GB:STOPGRP:2"];
       StopGroup.decoded := Some Fixtures.stop_A |};
    {| StopGroup.associatedidentifiers := ["GB:STOPGRP:2"];
       StopGroup.decoded := None |};
    {| StopGroup.associatedidentifiers := ["GB:STOPGRP:1"];
       StopGroup.decoded := Some stop_B |} ]%string.

Definition stop_group : StopGroup.t :=
  {| StopGroup.Identifier := "GB:STOPGRP:1";
     StopGroup.CreationDateTime := Fixtures.created_1;
     StopGroup.ModificationDateTime := Fixtures.created_2;
     StopGroup.Name := "Town Centre";
     StopGroup.Type_ := "bus";
     StopGroup.Status := "active";
     StopGroup.Stops := [] |}.

(** An environment that names a host and a database and no password. *)
Definition environment : gmap string string :=
  <["BRITBUS_REDIS_ADDRESS" := "cache:6379"]>
    (<["BRITBUS_REDIS_DATABASE" := "3"]>
       (<["TRAVIGO_BODS_API_KEY" := "secret"]> ∅))%string.

(** A server that answers every ping. *)
Definition Ping_ok (o : redis_client.Options) : option string := None.

Definition request : http.Request :=
  {| http.URL_RawQuery := "dataFormat=xml"; http.Header := ∅ |}.

Definition ParseQuery_none (raw : string) : gmap string (list string) := ∅.

Definition basicAuth_plain (username password : string) : string :=
  (username ++ ":" ++ password)%string.

Definition authenticate_ok (username password : string) : string + string :=
  inl "token"%string.

Definition registry : list datasets.DataSet :=
  manager.GetRegisteredDataSets ParseQuery_none basicAuth_plain authenticate_ok.

End Samples.

(** The formatting and digest functions are run on closed terms only. *)
Arguments time.String_ : simpl never.
Arguments time.GoString : simpl never.
Arguments bytes_of_string : simpl never.
Arguments Sprintf_x : simpl never.
Arguments Sha256.Sum256 : simpl never.

(** * Properties *)

(** ** Fingerprints *)

Lemma written_fold_rules (rs : list AvailabilityRule.t) (h : hash.Hash) :
  hash.written (fold_left Journey.write_rule rs h)
  = hash.written h ++ flat_map Fingerprint.rule rs.
Proof.
  revert h. induction rs as [|r rs IH]; intros h; cbn [fold_left flat_map].
  - by rewrite app_nil_r.
  - rewrite IH. unfold Journey.write_rule, Fingerprint.rule, hash.Write.
    cbn [hash.written]. by rewrite <- !app_assoc.
Qed.

Lemma written_fold_path (ps : list JourneyPathItem.t) (h : hash.Hash) :
  hash.written (fold_left Journey.write_path_item ps h)
  = hash.written h ++ flat_map Fingerprint.path_item ps.
Proof.
  revert h. induction ps as [|p ps IH]; intros h; cbn [fold_left flat_map].
  - by rewrite app_nil_r.
  - rewrite IH. unfold Journey.write_path_item, Fingerprint.path_item, hash.Write.
    cbn [hash.written]. by rewrite <- !app_assoc.
Qed.

Lemma hash_without_availability (j : Journey.t) :
  Journey.GenerateFunctionalHash j false
  = Some (Fingerprint.digest
            (Fingerprint.header j ++ flat_map Fingerprint.path_item (Journey.Path j))).
Proof.
  unfold Journey.GenerateFunctionalHash, Fingerprint.digest, hash.Sum.
  cbn [mbind option_bind]. rewrite written_fold_path.
  unfold Fingerprint.header, hash.Write, hash.New. cbn [hash.written app].
  by rewrite <- !app_assoc.
Qed.

Lemma hash_with_availability (j : Journey.t) (a : Availability.t) :
  Journey.Availability j = Some a ->
  Journey.GenerateFunctionalHash j true
  = Some (Fingerprint.digest
            (Fingerprint.header j ++ Fingerprint.rules a
             ++ flat_map Fingerprint.path_item (Journey.Path j))).
Proof.
  intros Ha. unfold Journey.GenerateFunctionalHash, Fingerprint.digest, hash.Sum.
  rewrite Ha. cbn [mbind option_bind]. rewrite written_fold_path, written_fold_rules.
  unfold Fingerprint.header, Fingerprint.rules, hash.Write, hash.New.
  cbn [hash.written app]. rewrite !flat_map_app. by rewrite <- !app_assoc.
Qed.

Lemma hash_nil_availability (j : Journey.t) :
  Journey.Availability j = None -> Journey.GenerateFunctionalHash j true = None.
Proof. intros Ha. unfold Journey.GenerateFunctionalHash. by rewrite Ha. Qed.

(** Two journeys through [FilterIdenticalJourneys]. *)
Lemma filter_pair_same (j j' : Journey.t) (flag : bool) (h : string) :
  Journey.GenerateFunctionalHash j flag = Some h ->
  Journey.GenerateFunctionalHash j' flag = Some h ->
  FilterIdenticalJourneys [j; j'] flag = Some [j].
Proof.
  intros Hj Hj'. unfold FilterIdenticalJourneys. cbn [filter_loop].
  rewrite Hj. cbn [mbind option_bind]. unfold flag_of at 1.
  rewrite lookup_empty. cbn [default negb app]. rewrite Hj'. cbn [mbind option_bind].
  unfold flag_of. by rewrite lookup_insert_eq.
Qed.

Lemma filter_pair_distinct (j j' : Journey.t) (flag : bool) (h h' : string) :
  Journey.GenerateFunctionalHash j flag = Some h ->
  Journey.GenerateFunctionalHash j' flag = Some h' ->
  h <> h' ->
  FilterIdenticalJourneys [j; j'] flag = Some [j; j'].
Proof.
  intros Hj Hj' Hne. unfold FilterIdenticalJourneys. cbn [filter_loop].
  rewrite Hj. cbn [mbind option_bind]. unfold flag_of at 1.
  rewrite lookup_empty. cbn [default negb app]. rewrite Hj'. cbn [mbind option_bind].
  unfold flag_of. rewrite lookup_insert_ne by done. by rewrite lookup_empty.
Qed.

(** The fingerprint reads six fields of a journey and nothing else. *)
Lemma hash_functional_fields (j j' : Journey.t) (flag : bool) :
  Journey.ServiceRef j = Journey.ServiceRef j' ->
  Journey.DestinationDisplay j = Journey.DestinationDisplay j' ->
  Journey.Direction j = Journey.Direction j' ->
  Journey.DepartureTime j = Journey.DepartureTime j' ->
  Journey.Availability j = Journey.Availability j' ->
  Journey.Path j = Journey.Path j' ->
  Journey.GenerateFunctionalHash j flag = Journey.GenerateFunctionalHash j' flag.
Proof.
  intros H1 H2 H3 H4 H5 H6. unfold Journey.GenerateFunctionalHash.
  by rewrite H1, H2, H3, H4, H5, H6.
Qed.

(** Two closed fingerprints differ: decided by running the model. *)
Ltac digests_differ := apply (bool_decide_unpack _); vm_compute; exact I.

(** C10. With the flag set, [GenerateFunctionalHash] fails exactly on a
    journey whose [Availability] is nil (the nil dereference at
    [Availability.Match]); with the flag clear it yields a digest for every
    journey and never reads [Availability]. *)
Theorem fingerprint_needs_availability_only_with_flag :
  (forall j, Journey.GenerateFunctionalHash j true = None <-> Journey.Availability j = None)
  /\ (forall j, exists h, Journey.GenerateFunctionalHash j false = Some h)
  /\ (forall j a,
        Journey.GenerateFunctionalHash (Journey.set_Availability j a) false
        = Journey.GenerateFunctionalHash j false).
Proof.
  split; [|split].
  - intros j. split.
    + destruct (Journey.Availability j) as [a|] eqn:Ha; [|done].
      by rewrite (hash_with_availability j a Ha).
    + apply hash_nil_availability.
  - intros j. rewrite hash_without_availability. eauto.
  - intros j a. by rewrite !hash_without_availability.
Qed.

Lemma fingerprint_needs_availability_only_with_flag_witness :
  Journey.GenerateFunctionalHash Fixtures.J_unconditional true = None
  /\ exists h, Journey.GenerateFunctionalHash Fixtures.J_unconditional false = Some h.
Proof.
  destruct fingerprint_needs_availability_only_with_flag as (Hnil & Hdef & _).
  split.
  - apply Hnil. reflexivity.
  - apply Hdef.
Defined.

(** C2. The fingerprint is a function of the journey: computing it twice
    gives the same outcome, and it does not change with [CreationDateTime] or
    [OtherIdentifiers], nor with any field other than the six it reads.  It
    does change, on the scenario journey, with
    [DepartureTime]; with each of the five hashed stop and time fields of
    either path item; and, when the flag is set, with a rule of each of the
    four rule lists. *)
Theorem fingerprint_determinism :
  (forall j flag o1 o2,
      Journey.GenerateFunctionalHash j flag = o1 ->
      Journey.GenerateFunctionalHash j flag = o2 -> o1 = o2)
  /\ (forall j flag created ids,
        Journey.GenerateFunctionalHash
          (Journey.set_OtherIdentifiers (Journey.set_CreationDateTime j created) ids) flag
        = Journey.GenerateFunctionalHash j flag)
  /\ (forall j j' flag,
        Journey.ServiceRef j = Journey.ServiceRef j' ->
        Journey.DestinationDisplay j = Journey.DestinationDisplay j' ->
        Journey.Direction j = Journey.Direction j' ->
        Journey.DepartureTime j = Journey.DepartureTime j' ->
        Journey.Availability j = Journey.Availability j' ->
        Journey.Path j = Journey.Path j' ->
        Journey.GenerateFunctionalHash j flag = Journey.GenerateFunctionalHash j' flag)
  /\ (forall flag,
        Journey.GenerateFunctionalHash
          (Journey.set_DepartureTime Fixtures.J1 Fixtures.at_0810) flag
        <> Journey.GenerateFunctionalHash Fixtures.J1 flag)
  /\ (forall flag i item set_field,
        Journey.Path Fixtures.J1 !! i = Some item ->
        set_field ∈ [ (fun p => JourneyPathItem.set_OriginStopRef p "X"%string);
                      (fun p => JourneyPathItem.set_DestinationStopRef p "X"%string);
                      (fun p => JourneyPathItem.set_OriginArrivalTime p Fixtures.created_1);
                      (fun p => JourneyPathItem.set_OriginDepartureTime p Fixtures.created_1);
                      (fun p => JourneyPathItem.set_DestinationArrivalTime p Fixtures.created_1) ] ->
        Journey.GenerateFunctionalHash
          (Journey.set_Path Fixtures.J1 (<[i := set_field item]> (Journey.Path Fixtures.J1))) flag
        <> Journey.GenerateFunctionalHash Fixtures.J1 flag)
  /\ (forall a,
        a ∈ [ Fixtures.four_lists (Fixtures.rule "DayOfWeek" "Friday") Fixtures.r_secondary
                Fixtures.r_exclude Fixtures.r_condition;
              Fixtures.four_lists Fixtures.r_match (Fixtures.rule "DayOfWeek" "Friday")
                Fixtures.r_exclude Fixtures.r_condition;
              Fixtures.four_lists Fixtures.r_match Fixtures.r_secondary
                (Fixtures.rule "Date" "2024-12-26") Fixtures.r_condition;
              Fixtures.four_lists Fixtures.r_match Fixtures.r_secondary Fixtures.r_exclude
                (Fixtures.rule "SchoolHoliday" "None");
              Fixtures.four_lists Fixtures.r_match Fixtures.r_secondary Fixtures.r_exclude
                {| AvailabilityRule.Type_ := "BankHoliday";
                   AvailabilityRule.Value := "None";
                   AvailabilityRule.Description := "not on bank holidays" |} ] ->
        Journey.GenerateFunctionalHash (Journey.set_Availability Fixtures.J5 (Some a)) true
        <> Journey.GenerateFunctionalHash Fixtures.J5 true).
Proof.
  split; [|split; [|split; [|split; [|split]]]].
  - intros j flag o1 o2 <- <-. reflexivity.
  - intros j flag created ids. by apply hash_functional_fields.
  - intros j j' flag. apply hash_functional_fields.
  - intros [|]; digests_differ.
  - intros flag i item set_field Hi Hset.
    destruct i as [|[|i]]; [| |discriminate Hi];
      injection Hi as <-;
      repeat (apply elem_of_cons in Hset as [->|Hset]; [destruct flag; digests_differ|]);
      apply elem_of_nil in Hset; destruct Hset.
  - intros a Ha.
    repeat (apply elem_of_cons in Ha as [->|Ha]; [digests_differ|]).
    apply elem_of_nil in Ha. destruct Ha.
Qed.

Lemma fingerprint_determinism_witness :
  Journey.GenerateFunctionalHash
    (Journey.set_Path Fixtures.J1
       (<[1%nat := JourneyPathItem.set_DestinationStopRef
                     (Fixtures.leg "B" "C" Fixtures.at_0810 Fixtures.at_0820) "X"]>
          (Journey.Path Fixtures.J1))) false
  <> Journey.GenerateFunctionalHash Fixtures.J1 false.
Proof.
  destruct fingerprint_determinism as (_ & _ & _ & _ & Hpath & _).
  apply (Hpath false 1%nat (Fixtures.leg "B" "C" Fixtures.at_0810 Fixtures.at_0820)
           (fun p => JourneyPathItem.set_DestinationStopRef p "X"%string)).
  - reflexivity.
  - apply list_elem_of_further, list_elem_of_here.
Defined.

(** The claim of C4 as worded fails: [J1] and [J4] differ in one rule of
    [Availability.Condition] only, yet with the flag set they have the same
    fingerprint and [J4] is dropped as a duplicate (the fields of a rule are
    written one after the other with nothing in between). *)
Lemma availability_rule_split_counterexample :
  Fixtures.J4 = Journey.set_Availability Fixtures.J1 (Journey.Availability Fixtures.J4)
  /\ Journey.Availability Fixtures.J4 <> Journey.Availability Fixtures.J1
  /\ Journey.GenerateFunctionalHash Fixtures.J4 true
     = Journey.GenerateFunctionalHash Fixtures.J1 true
  /\ FilterIdenticalJourneys [Fixtures.J1; Fixtures.J4] true = Some [Fixtures.J1].
Proof.
  split; [reflexivity|]. split; [discriminate|].
  assert (Journey.GenerateFunctionalHash Fixtures.J4 true
          = Journey.GenerateFunctionalHash Fixtures.J1 true) as Heq
    by (vm_compute; reflexivity).
  split; [exact Heq|].
  destruct (Journey.GenerateFunctionalHash Fixtures.J1 true) as [h|] eqn:H1.
  - by apply (filter_pair_same _ _ true h).
  - exfalso. revert H1. apply (bool_decide_unpack _). vm_compute. exact I.
Qed.

(** C4 (amended). The digest is taken of the bytes of [ServiceRef],
    [DestinationDisplay], [Direction] and [DepartureTime], in that order; with
    the flag set and an availability present, then of every rule of [Match],
    [MatchSecondary], [Exclude] and [Condition], type, value and description
    each; then of the path items; nothing separates the fields.  With the flag
    clear the availability is not read: a journey and its copy with another
    availability are duplicates, only the first is kept.  With the flag set the
    scenario journeys [J1] and [J3] are both kept, whereas two journeys whose
    rule bytes coincide are duplicates whatever their rules are. *)
Theorem fingerprint_fold_order :
  (forall j,
      Journey.GenerateFunctionalHash j false
      = Some (Fingerprint.digest
                (Fingerprint.header j ++ flat_map Fingerprint.path_item (Journey.Path j))))
  /\ (forall j a,
        Journey.Availability j = Some a ->
        Journey.GenerateFunctionalHash j true
        = Some (Fingerprint.digest
                  (Fingerprint.header j ++ Fingerprint.rules a
                   ++ flat_map Fingerprint.path_item (Journey.Path j))))
  /\ (forall j a',
        Journey.GenerateFunctionalHash (Journey.set_Availability j a') false
        = Journey.GenerateFunctionalHash j false
        /\ FilterIdenticalJourneys [j; Journey.set_Availability j a'] false = Some [j])
  /\ FilterIdenticalJourneys [Fixtures.J1; Fixtures.J3] false = Some [Fixtures.J1]
  /\ FilterIdenticalJourneys [Fixtures.J1; Fixtures.J3] true = Some [Fixtures.J1; Fixtures.J3]
  /\ (forall j a a',
        Journey.Availability j = Some a ->
        Fingerprint.rules a' = Fingerprint.rules a ->
        FilterIdenticalJourneys [j; Journey.set_Availability j (Some a')] true = Some [j]).
Proof.
  assert (forall j a',
             FilterIdenticalJourneys [j; Journey.set_Availability j a'] false = Some [j])
    as Hdup.
  { intros j a'. eapply filter_pair_same.
    - apply hash_without_availability.
    - by rewrite hash_without_availability. }
  split; [exact hash_without_availability|].
  split; [exact hash_with_availability|].
  split; [|split; [|split]].
  - intros j a'. split; [by rewrite !hash_without_availability|apply Hdup].
  - apply (Hdup Fixtures.J1 (Journey.Availability Fixtures.J3)).
  - destruct (Journey.GenerateFunctionalHash Fixtures.J1 true) as [h1|] eqn:H1;
      [|exfalso; revert H1; apply (bool_decide_unpack _); vm_compute; exact I].
    destruct (Journey.GenerateFunctionalHash Fixtures.J3 true) as [h3|] eqn:H3;
      [|exfalso; revert H3; apply (bool_decide_unpack _); vm_compute; exact I].
    apply (filter_pair_distinct _ _ true h1 h3 H1 H3).
    intros ->. revert H3. rewrite <- H1. digests_differ.
  - intros j a a' Ha Hrules. eapply filter_pair_same.
    + by apply hash_with_availability.
    + rewrite (hash_with_availability _ a') by reflexivity. by rewrite Hrules.
Qed.

Lemma fingerprint_fold_order_witness :
  FilterIdenticalJourneys
    [Fixtures.J1;
     Journey.set_Availability Fixtures.J1
       (Some (Fixtures.weekdays [Fixtures.rule "Date2024" "-03-04"]))] true
  = Some [Fixtures.J1].
Proof.
  destruct fingerprint_fold_order as (_ & _ & _ & _ & _ & Hsame).
  apply (Hsame Fixtures.J1 (Fixtures.weekdays [Fixtures.rule "Date" "2024-03-04"])).
  - reflexivity.
  - vm_compute. reflexivity.
Defined.

(** ** De-duplication *)

Lemma first_at_snoc (flag : bool) (seen : list Journey.t) (j : Journey.t) (i : nat) :
  Fingerprint.first_at flag (seen ++ [j]) i
  <-> Fingerprint.first_at flag seen i
      \/ (i = length seen
          /\ Fingerprint.digest_of flag j ∉ (Fingerprint.digest_of flag <$> seen)).
Proof.
  unfold Fingerprint.first_at. split.
  - intros (x & Hx & Hnew).
    destruct (Nat.lt_trichotomy i (length seen)) as [Hlt|[->|Hgt]].
    + left. exists x. rewrite lookup_app_l in Hx by exact Hlt.
      rewrite take_app_le in Hnew by lia. auto.
    + right. rewrite list_lookup_middle in Hx by reflexivity.
      injection Hx as <-. rewrite take_app_length in Hnew. auto.
    + apply lookup_lt_Some in Hx. rewrite length_app in Hx. simpl in Hx. lia.
  - intros [(x & Hx & Hnew)|[-> Hnew]].
    + pose proof (lookup_lt_Some _ _ _ Hx) as Hlt. exists x.
      rewrite lookup_app_l by exact Hlt. rewrite take_app_le by lia. auto.
    + exists j. rewrite list_lookup_middle by reflexivity.
      rewrite take_app_length. auto.
Qed.

Lemma retained_start (flag : bool) : Fingerprint.retained flag [] [] ∅ [].
Proof.
  unfold Fingerprint.retained. repeat split.
  - unfold flag_of. rewrite lookup_empty. discriminate.
  - intros H. apply elem_of_nil in H. destruct H.
  - intros j H. apply elem_of_nil in H. destruct H.
  - apply NoDup_nil_2.
  - constructor.
  - constructor.
  - intros H. apply elem_of_nil in H. destruct H.
  - intros (j & Hj & _). discriminate Hj.
Qed.

(** A journey whose fingerprint was met before is passed over. *)
Lemma retained_skip (flag : bool) seen filtered matches kept (j : Journey.t) (h : string) :
  Fingerprint.digest_of flag j = Some h ->
  flag_of matches h = true ->
  Fingerprint.retained flag seen filtered matches kept ->
  Fingerprint.retained flag (seen ++ [j]) filtered matches kept.
Proof.
  intros Hh Hmet (Hm & Hcover & Hnd & Hkept & Hsorted & Hfirst).
  unfold Fingerprint.retained. split; [exact Hm|]. split; [|split; [exact Hnd|]].
  - intros x [Hx | Hx%list_elem_of_singleton]%elem_of_app.
    + by apply Hcover.
    + subst x. rewrite Hh. by apply Hm.
  - split; [|split; [exact Hsorted|]].
    + eapply Forall2_impl; [exact Hkept|]. intros i x Hx. cbn beta in *.
      rewrite lookup_app_l; [exact Hx|]. by eapply lookup_lt_Some.
    + intros i. rewrite first_at_snoc, Hfirst. split; [auto|].
      intros [Hi|[_ Hnew]]; [exact Hi|]. exfalso. apply Hnew.
      rewrite Hh. apply Hm in Hmet.
      apply list_elem_of_fmap in Hmet as (x & Hx & Hin).
      assert (Fingerprint.digest_of flag x ∈ Fingerprint.digest_of flag <$> seen) as Hseen.
      { apply list_elem_of_lookup in Hin as (n & Hn).
        destruct (Forall2_lookup_r _ _ _ n x Hkept Hn) as (i' & _ & Hi').
        apply list_elem_of_fmap_2. apply list_elem_of_lookup. eauto. }
      by rewrite <- Hx in Hseen.
Qed.

(** A journey with a fingerprint not met before is appended and marked. *)
Lemma retained_keep (flag : bool) seen filtered matches kept (j : Journey.t) (h : string) :
  Fingerprint.digest_of flag j = Some h ->
  flag_of matches h = false ->
  Fingerprint.retained flag seen filtered matches kept ->
  Fingerprint.retained flag (seen ++ [j]) (filtered ++ [j]) (<[h := true]> matches)
    (kept ++ [length seen]).
Proof.
  intros Hh Hnew (Hm & Hcover & Hnd & Hkept & Hsorted & Hfirst).
  assert (Some h ∉ Fingerprint.digest_of flag <$> filtered) as Hfresh.
  { intros Hin. apply Hm in Hin. congruence. }
  assert (Fingerprint.digest_of flag j ∉ Fingerprint.digest_of flag <$> seen) as Hunseen.
  { intros (x & Hx & Hin)%list_elem_of_fmap. apply Hfresh. rewrite <- Hh, Hx. by apply Hcover. }
  unfold Fingerprint.retained. rewrite !fmap_app. cbn [fmap list_fmap].
  split; [|split; [|split; [|split; [|split]]]].
  - intros h'. rewrite elem_of_app, list_elem_of_singleton, <- Hm. unfold flag_of.
    destruct (decide (h = h')) as [->|Hne].
    + rewrite lookup_insert_eq, Hh. cbn. split; auto.
    + rewrite lookup_insert_ne by exact Hne. rewrite Hh. split; [auto|].
      intros [H|H]; [exact H|]. congruence.
  - intros x [Hx | Hx%list_elem_of_singleton]%elem_of_app; apply elem_of_app.
    + left. by apply Hcover.
    + right. subst x. apply list_elem_of_here.
  - apply NoDup_app. split; [exact Hnd|]. split; [|apply NoDup_singleton].
    intros o Ho Ho'%list_elem_of_singleton. subst o. rewrite Hh in Ho. by apply Hfresh.
  - apply Forall2_app.
    + eapply Forall2_impl; [exact Hkept|]. intros i x Hx. cbn beta in *.
      rewrite lookup_app_l; [exact Hx|]. by eapply lookup_lt_Some.
    + constructor; [|constructor]. by apply list_lookup_middle.
  - apply StronglySorted_app_2; [|exact Hsorted|repeat constructor].
    intros i1 i2 Hi1 Hi2%list_elem_of_singleton. subst i2.
    apply Hfirst in Hi1 as (x & Hx & _). by eapply lookup_lt_Some.
  - intros i. rewrite first_at_snoc, elem_of_app, list_elem_of_singleton, Hfirst.
    split; intros [Hi|Hi]; auto. right. by destruct Hi.
Qed.

Lemma filter_loop_retains (flag : bool) (rest : list Journey.t) :
  forall seen filtered matches kept,
    Forall (fun j => is_Some (Fingerprint.digest_of flag j)) rest ->
    Fingerprint.retained flag seen filtered matches kept ->
    exists out matches' kept',
      filter_loop flag rest filtered matches = Some out
      /\ Fingerprint.retained flag (seen ++ rest) out matches' kept'.
Proof.
  induction rest as [|j rest IH]; intros seen filtered matches kept Hdef Hinv.
  - exists filtered, matches, kept. rewrite app_nil_r. auto.
  - apply Forall_cons in Hdef as [[h Hh] Hdef]. cbn [filter_loop].
    unfold Fingerprint.digest_of in Hh. rewrite Hh. cbn [mbind option_bind].
    replace (seen ++ j :: rest) with ((seen ++ [j]) ++ rest) by by rewrite <- app_assoc.
    destruct (flag_of matches h) eqn:Hmet; cbn [negb].
    + apply (IH (seen ++ [j]) filtered matches kept Hdef).
      by apply (retained_skip flag seen filtered matches kept j h).
    + apply (IH (seen ++ [j]) (filtered ++ [j]) (<[h := true]> matches)
                (kept ++ [length seen]) Hdef).
      by apply retained_keep.
Qed.

Lemma digest_defined (flag : bool) (j : Journey.t) :
  (flag = true -> is_Some (Journey.Availability j)) ->
  is_Some (Fingerprint.digest_of flag j).
Proof.
  unfold Fingerprint.digest_of. destruct flag; intros Ha.
  - destruct (Ha eq_refl) as [a Hj]. rewrite (hash_with_availability j a Hj). eauto.
  - rewrite hash_without_availability. eauto.
Qed.

(** The claim of C1 as worded fails: with the flag set, a list holding a
    journey without availability is not de-duplicated at all, the call
    panics. *)
Lemma deduplicate_nil_availability_counterexample :
  ~ exists out, FilterIdenticalJourneys [Fixtures.J_unconditional] true = Some out.
Proof.
  assert (FilterIdenticalJourneys [Fixtures.J_unconditional] true = None) as Hpanic
    by (vm_compute; reflexivity).
  intros [out Hout]. rewrite Hpanic in Hout. discriminate Hout.
Qed.

(** C1 (amended). For every list of journeys and every flag such that, when
    the flag is set, every journey has an availability,
    [FilterIdenticalJourneys] returns the journeys at the positions that hold
    the first journey of their fingerprint, unchanged and in input order: one
    per distinct fingerprint, every fingerprint of the input among them.  A
    journey and its copy with another creation time go to the journey alone
    under a clear flag; so do [J1] and [J2]. *)
Theorem deduplicate_keeps_first_per_fingerprint :
  (forall (js : list Journey.t) (flag : bool),
      Forall (fun j => flag = true -> is_Some (Journey.Availability j)) js ->
      exists out kept,
        FilterIdenticalJourneys js flag = Some out
        /\ Forall2 (fun i j => js !! i = Some j) kept out
        /\ StronglySorted lt kept
        /\ (forall i, i ∈ kept <-> Fingerprint.first_at flag js i)
        /\ NoDup (Fingerprint.digest_of flag <$> out)
        /\ (forall j, j ∈ js ->
              Fingerprint.digest_of flag j ∈ (Fingerprint.digest_of flag <$> out)))
  /\ (forall j created,
        FilterIdenticalJourneys [j; Journey.set_CreationDateTime j created] false = Some [j])
  /\ FilterIdenticalJourneys [Fixtures.J1; Fixtures.J2] false = Some [Fixtures.J1].
Proof.
  assert (forall j created,
             FilterIdenticalJourneys [j; Journey.set_CreationDateTime j created] false
             = Some [j]) as Hcopy.
  { intros j created. eapply filter_pair_same.
    - apply hash_without_availability.
    - by rewrite hash_without_availability. }
  split; [|split; [exact Hcopy|]].
  2: { change Fixtures.J2 with (Journey.set_CreationDateTime Fixtures.J1 Fixtures.created_2).
       apply Hcopy. }
  intros js flag Hdef.
  destruct (filter_loop_retains flag js [] [] ∅ []) as (out & m & kept & Hout & Hinv).
  - eapply Forall_impl; [exact Hdef|]. intros j. apply digest_defined.
  - apply retained_start.
  - rewrite app_nil_l in Hinv.
    destruct Hinv as (_ & Hcover & Hnd & Hkept & Hsorted & Hfirst).
    exists out, kept. auto 10.
Qed.

Lemma deduplicate_keeps_first_per_fingerprint_witness :
  exists out kept,
    FilterIdenticalJourneys [Fixtures.J1; Fixtures.J2; Fixtures.J3; Fixtures.J1] true = Some out
    /\ Forall2 (fun i j => [Fixtures.J1; Fixtures.J2; Fixtures.J3; Fixtures.J1] !! i = Some j)
         kept out
    /\ StronglySorted lt kept
    /\ (forall i, i ∈ kept
          <-> Fingerprint.first_at true [Fixtures.J1; Fixtures.J2; Fixtures.J3; Fixtures.J1] i)
    /\ NoDup (Fingerprint.digest_of true <$> out)
    /\ (forall j, j ∈ [Fixtures.J1; Fixtures.J2; Fixtures.J3; Fixtures.J1] ->
          Fingerprint.digest_of true j ∈ (Fingerprint.digest_of true <$> out)).
Proof.
  apply (proj1 deduplicate_keeps_first_per_fingerprint).
  repeat constructor; intros _; eexists; reflexivity.
Defined.

(** ** Flattening the stops of a path *)

Lemma index_last_of_nonempty {A : Type} (l : list A) (x : A) :
  index (l ++ [x]) (Z.of_nat (length (l ++ [x])) - 1) = Some x.
Proof.
  unfold index. rewrite length_app. cbn [length].
  replace (Z.of_nat (length l + 1) - 1) with (Z.of_nat (length l)) by lia.
  destruct (Z.ltb_spec (Z.of_nat (length l)) 0) as [Hneg|_]; [lia|].
  destruct (Z.leb_spec (Z.of_nat (length l + 1)) (Z.of_nat (length l))) as [Hle|_]; [lia|].
  cbn [orb]. rewrite Nat2Z.id. by apply list_lookup_middle.
Qed.

Lemma flatten_step_stops (mark : bool) (st : Journey.flatten_state) (p : JourneyPathItem.t) :
  NoDup (Journey.stops st) ->
  (forall ref, flag_of (Journey.alreadySeen st) ref = true <-> ref ∈ Journey.stops st) ->
  NoDup (Journey.stops (Journey.flatten_step mark st p))
  /\ (forall ref,
        ref ∈ Journey.stops (Journey.flatten_step mark st p)
        <-> ref ∈ Journey.stops st \/ ref = JourneyPathItem.OriginStopRef p).
Proof.
  intros Hnd Hseen. unfold Journey.flatten_step.
  destruct (flag_of (Journey.alreadySeen st) (JourneyPathItem.OriginStopRef p)) eqn:Hp;
    cbn [negb Journey.stops].
  - split; [exact Hnd|]. intros ref. split; [auto|].
    intros [H| ->]; [exact H|]. by apply Hseen.
  - split.
    + apply NoDup_app. split; [exact Hnd|]. split; [|apply NoDup_singleton].
      intros ref Href Href'%list_elem_of_singleton. subst ref.
      apply Hseen in Href. congruence.
    + intros ref. by rewrite elem_of_app, list_elem_of_singleton.
Qed.

Lemma flatten_step_marks (st : Journey.flatten_state) (p : JourneyPathItem.t) :
  (forall ref, flag_of (Journey.alreadySeen st) ref = true <-> ref ∈ Journey.stops st) ->
  forall ref,
    flag_of (Journey.alreadySeen (Journey.flatten_step true st p)) ref = true
    <-> ref ∈ Journey.stops (Journey.flatten_step true st p).
Proof.
  intros Hseen ref. unfold Journey.flatten_step.
  destruct (flag_of (Journey.alreadySeen st) (JourneyPathItem.OriginStopRef p)) eqn:Hp;
    cbn [negb Journey.stops Journey.alreadySeen].
  - apply Hseen.
  - rewrite elem_of_app, list_elem_of_singleton, <- Hseen. unfold flag_of.
    destruct (decide (JourneyPathItem.OriginStopRef p = ref)) as [<-|Hne].
    + rewrite lookup_insert_eq. cbn. split; auto.
    + rewrite lookup_insert_ne by exact Hne. split; [auto|].
      intros [H|H]; [exact H|]. congruence.
Qed.

Lemma flatten_loop_stops (ps : list JourneyPathItem.t) :
  forall st,
    NoDup (Journey.stops st) ->
    (forall ref, flag_of (Journey.alreadySeen st) ref = true <-> ref ∈ Journey.stops st) ->
    NoDup (Journey.stops (fold_left (Journey.flatten_step true) ps st))
    /\ (forall ref,
          flag_of (Journey.alreadySeen (fold_left (Journey.flatten_step true) ps st)) ref
          = true
          <-> ref ∈ Journey.stops (fold_left (Journey.flatten_step true) ps st))
    /\ (forall ref,
          ref ∈ Journey.stops (fold_left (Journey.flatten_step true) ps st)
          <-> ref ∈ Journey.stops st
              \/ exists p, p ∈ ps /\ JourneyPathItem.OriginStopRef p = ref).
Proof.
  induction ps as [|p ps IH]; intros st Hnd Hseen; cbn [fold_left].
  - split; [exact Hnd|]. split; [exact Hseen|]. intros ref. split; [auto|].
    intros [H|(p & Hp & _)]; [exact H|]. apply elem_of_nil in Hp. destruct Hp.
  - destruct (flatten_step_stops true st p Hnd Hseen) as [Hnd' Hmem].
    destruct (IH _ Hnd' (flatten_step_marks st p Hseen)) as (Hnd'' & Hseen'' & Hmem'').
    split; [exact Hnd''|]. split; [exact Hseen''|].
    intros ref. rewrite Hmem'', Hmem. split.
    + intros [[H| ->]|(q & Hq & Href)]; [by left| |].
      * right. exists p. split; [apply list_elem_of_here|reflexivity].
      * right. exists q. split; [by apply list_elem_of_further|exact Href].
    + intros [H|(q & Hq & Href)]; [by left; left|].
      apply elem_of_cons in Hq as [->|Hq]; [left; right; by symmetry|].
      right. exists q. auto.
Qed.

(** C9. [FlattenStops] returns for every journey with at least one path
    item, and the stops it returns are the origin stops of the path items,
    each once; on an empty path the index of the last path item is out of
    range and the call fails. *)
Theorem flatten_stops_needs_a_path :
  forall j,
    (Journey.Path j <> [] ->
     exists stops arrivals departures,
       Journey.FlattenStops j = Some (stops, arrivals, departures)
       /\ NoDup stops
       /\ (forall ref,
             ref ∈ stops
             <-> exists p, p ∈ Journey.Path j /\ JourneyPathItem.OriginStopRef p = ref))
    /\ (Journey.Path j = [] -> Journey.FlattenStops j = None).
Proof.
  intros j. unfold Journey.FlattenStops. split.
  - intros Hne.
    destruct (exists_last Hne) as (front & lastPathItem & Hpath).
    assert (index (Journey.Path j) (Z.of_nat (length (Journey.Path j)) - 1)
            = Some lastPathItem) as Hlast
      by (rewrite Hpath; apply index_last_of_nonempty).
    rewrite Hlast. cbn [mbind option_bind].
    destruct (flatten_loop_stops (Journey.Path j)
                {| Journey.stops := []; Journey.arrivalTimes := ∅;
                   Journey.departureTimes := ∅; Journey.alreadySeen := ∅ |})
      as (Hnd & Hseen & Hmem).
    { apply NoDup_nil_2. }
    { intros ref. unfold flag_of. cbn. rewrite lookup_empty. cbn. split; [discriminate|].
      intros H. apply elem_of_nil in H. destruct H. }
    destruct (flatten_step_stops false _ lastPathItem Hnd Hseen) as [Hnd' Hmem'].
    eexists _, _, _. split; [reflexivity|]. split; [exact Hnd'|].
    intros ref. rewrite Hmem', Hmem. cbn [Journey.stops]. split.
    + intros [[H|H]| ->]; [apply elem_of_nil in H; destruct H|exact H|].
      exists lastPathItem. split; [|reflexivity].
      rewrite Hpath. apply elem_of_app. right. apply list_elem_of_here.
    + intros H. left. by right.
  - intros ->. reflexivity.
Qed.

Lemma flatten_stops_needs_a_path_witness :
  (exists stops arrivals departures,
      Journey.FlattenStops Fixtures.J1 = Some (stops, arrivals, departures)
      /\ NoDup stops
      /\ (forall ref,
            ref ∈ stops
            <-> exists p, p ∈ Journey.Path Fixtures.J1
                          /\ JourneyPathItem.OriginStopRef p = ref))
  /\ Journey.FlattenStops (Journey.set_Path Fixtures.J1 []) = None.
Proof.
  split.
  - apply (proj1 (flatten_stops_needs_a_path Fixtures.J1)). discriminate.
  - apply (proj2 (flatten_stops_needs_a_path (Journey.set_Path Fixtures.J1 []))).
    reflexivity.
Defined.

(** ** Lookups in the store *)

Lemma find_first {A : Type} (f : A -> bool) (l : list A) (r : A) :
  List.find f l = Some r
  <-> exists pre post, l = pre ++ r :: post /\ Forall (fun x => f x = false) pre /\ f r = true.
Proof.
  induction l as [|x l IH]; cbn [List.find].
  - split; [discriminate|]. intros (pre & post & Hl & _). by destruct pre.
  - destruct (f x) eqn:Hx.
    + split.
      * intros [= ->]. exists [], l. auto.
      * intros (pre & post & Hl & Hpre & Hr). destruct pre as [|y pre].
        -- by injection Hl as -> _.
        -- injection Hl as -> _. apply Forall_cons in Hpre as [Hy _]. congruence.
    + rewrite IH. split.
      * intros (pre & post & -> & Hpre & Hr). exists (x :: pre), post. auto.
      * intros (pre & post & Hl & Hpre & Hr). destruct pre as [|y pre].
        -- injection Hl as -> _. congruence.
        -- injection Hl as -> ->. apply Forall_cons in Hpre as [_ Hpre]. eauto.
Qed.

Lemma find_nothing {A : Type} (f : A -> bool) (l : list A) :
  List.find f l = None <-> Forall (fun x => f x = false) l.
Proof.
  induction l as [|x l IH]; cbn [List.find].
  - split; auto.
  - destruct (f x) eqn:Hx.
    + split; [discriminate|]. intros [Hx' _]%Forall_cons. congruence.
    + rewrite IH. split; [auto|]. by intros [_ H]%Forall_cons.
Qed.


(** The realtime filter holds of the records of the journey that were
    modified after the cutoff date. *)
Lemma realtime_query_fresh (cutoffDate : time.Time) (id : string) (r : RealtimeJourney.t) :
  Journey.realtime_query id cutoffDate r = true
  <-> RealtimeJourney.JourneyRef r = id
      /\ time.After (RealtimeJourney.ModificationDateTime r) cutoffDate = true.
Proof.
  unfold Journey.realtime_query. rewrite andb_true_iff, String.eqb_eq. reflexivity.
Qed.

Lemma realtime_query_stale (cutoffDate : time.Time) (id : string) (r : RealtimeJourney.t) :
  Journey.realtime_query id cutoffDate r = false
  <-> ~ (RealtimeJourney.JourneyRef r = id
         /\ time.After (RealtimeJourney.ModificationDateTime r) cutoffDate = true).
Proof. rewrite <- realtime_query_fresh. by destruct (Journey.realtime_query _ _ r). Qed.

(** The record the overlay considers: the first one of the journey in the
    store that was modified after the cutoff date. *)
Lemma realtime_considered (GetActiveRealtimeJourneyCutOffDate : time.Time -> time.Time)
    (IsActive : RealtimeJourney.t -> bool)
    (db : database.Database) (now : time.Time) (j : Journey.t)
    (pre post : list RealtimeJourney.t) (r : RealtimeJourney.t) :
  database.realtime_journeys db = pre ++ r :: post ->
  Forall (fun x => ~ (RealtimeJourney.JourneyRef x = Journey.PrimaryIdentifier j
                      /\ time.After (RealtimeJourney.ModificationDateTime x)
                                    (GetActiveRealtimeJourneyCutOffDate now) = true)) pre ->
  RealtimeJourney.JourneyRef r = Journey.PrimaryIdentifier j ->
  time.After (RealtimeJourney.ModificationDateTime r)
             (GetActiveRealtimeJourneyCutOffDate now) = true ->
  Journey.GetRealtimeJourney GetActiveRealtimeJourneyCutOffDate IsActive db now j
  = if IsActive r then Journey.set_RealtimeJourney j (Some r) else j.
Proof.
  intros Hdb Hpre Hkey Hfresh. unfold Journey.GetRealtimeJourney, database.FindOne.
  assert (List.find
            (Journey.realtime_query (Journey.PrimaryIdentifier j)
               (GetActiveRealtimeJourneyCutOffDate now))
            (database.realtime_journeys db) = Some r) as ->; [|reflexivity].
  apply find_first. exists pre, post. split; [exact Hdb|]. split.
  - eapply Forall_impl; [exact Hpre|]. intros x. apply realtime_query_stale.
  - by apply realtime_query_fresh.
Qed.

Lemma realtime_none (GetActiveRealtimeJourneyCutOffDate : time.Time -> time.Time)
    (IsActive : RealtimeJourney.t -> bool)
    (db : database.Database) (now : time.Time) (j : Journey.t) :
  Forall (fun x => ~ (RealtimeJourney.JourneyRef x = Journey.PrimaryIdentifier j
                      /\ time.After (RealtimeJourney.ModificationDateTime x)
                                    (GetActiveRealtimeJourneyCutOffDate now) = true))
         (database.realtime_journeys db) ->
  Journey.GetRealtimeJourney GetActiveRealtimeJourneyCutOffDate IsActive db now j = j.
Proof.
  intros Hnone. unfold Journey.GetRealtimeJourney, database.FindOne.
  assert (List.find
            (Journey.realtime_query (Journey.PrimaryIdentifier j)
               (GetActiveRealtimeJourneyCutOffDate now))
            (database.realtime_journeys db) = None) as ->; [|reflexivity].
  apply find_nothing. eapply Forall_impl; [exact Hnone|]. intros x.
  apply realtime_query_stale.
Qed.


(** ** The realtime overlay *)




(** The claim of C6 as worded fails: of two active records of the journey
    inside the window, the overlay takes the one the store yields first,
    although the other one was modified later. *)
Lemma overlay_most_recent_counterexample :
  let older := Fixtures.tracked "RT1" (2 * time.Minute) in
  let newer := Fixtures.tracked "RT2" time.Minute in
  time.UnixNano (RealtimeJourney.ModificationDateTime older)
  < time.UnixNano (RealtimeJourney.ModificationDateTime newer)
  /\ time.Sub Fixtures.at_0800 (RealtimeJourney.ModificationDateTime newer)
     < Fixtures.five_minutes
  /\ RealtimeJourney.JourneyRef newer = Journey.PrimaryIdentifier Fixtures.J1
  /\ Journey.RealtimeJourney
       (Journey.GetRealtimeJourney Fixtures.cutoff_date Fixtures.always_active
          (Fixtures.store [] [] [older; newer]) Fixtures.at_0800 Fixtures.J1)
     = Some older
  /\ older <> newer.
Proof. cbv zeta. repeat split. discriminate. Qed.

(** C6 (amended). The overlay lookup selects the first realtime journey, in
    the order of the store, whose key equals the journey's primary identifier
    and whose modification time is inside the cutoff window, that is, after
    the cutoff date: that record alone is considered for overlay, and the
    records the store holds after it, whatever their modification times, make
    no difference. *)
Theorem overlay_considers_first_in_store :
  forall (GetActiveRealtimeJourneyCutOffDate : time.Time -> time.Time)
         (IsActive : RealtimeJourney.t -> bool)
         (db db' : database.Database) (now : time.Time) (j : Journey.t)
         (pre post post' : list RealtimeJourney.t) (r : RealtimeJourney.t),
    database.realtime_journeys db = pre ++ r :: post ->
    database.realtime_journeys db' = pre ++ r :: post' ->
    Forall (fun x => ~ (RealtimeJourney.JourneyRef x = Journey.PrimaryIdentifier j
                        /\ time.After (RealtimeJourney.ModificationDateTime x)
                                      (GetActiveRealtimeJourneyCutOffDate now) = true))
           pre ->
    RealtimeJourney.JourneyRef r = Journey.PrimaryIdentifier j ->
    time.After (RealtimeJourney.ModificationDateTime r)
               (GetActiveRealtimeJourneyCutOffDate now) = true ->
    Journey.GetRealtimeJourney GetActiveRealtimeJourneyCutOffDate IsActive db now j
    = (if IsActive r then Journey.set_RealtimeJourney j (Some r) else j)
    /\ Journey.GetRealtimeJourney GetActiveRealtimeJourneyCutOffDate IsActive db' now j
       = Journey.GetRealtimeJourney GetActiveRealtimeJourneyCutOffDate IsActive db now j.
Proof.
  intros cutoffDate IsActive db db' now j pre post post' r Hdb Hdb' Hpre Hkey Hfresh.
  rewrite (realtime_considered cutoffDate IsActive db now j pre post r) by assumption.
  by rewrite (realtime_considered cutoffDate IsActive db' now j pre post' r) by assumption.
Qed.

Lemma overlay_considers_first_in_store_witness :
  Journey.GetRealtimeJourney Fixtures.cutoff_date Fixtures.always_active
    (Fixtures.store [] []
       [Fixtures.tracked "RT0" (10 * time.Minute); Fixtures.tracked "RT1" (2 * time.Minute);
        Fixtures.tracked "RT2" time.Minute])
    Fixtures.at_0800 Fixtures.J1
  = Journey.set_RealtimeJourney Fixtures.J1 (Some (Fixtures.tracked "RT1" (2 * time.Minute))).
Proof.
  apply (overlay_considers_first_in_store Fixtures.cutoff_date Fixtures.always_active
           (Fixtures.store [] []
              [Fixtures.tracked "RT0" (10 * time.Minute);
               Fixtures.tracked "RT1" (2 * time.Minute); Fixtures.tracked "RT2" time.Minute])
           (Fixtures.store [] []
              [Fixtures.tracked "RT0" (10 * time.Minute);
               Fixtures.tracked "RT1" (2 * time.Minute)])
           Fixtures.at_0800 Fixtures.J1
           [Fixtures.tracked "RT0" (10 * time.Minute)] [Fixtures.tracked "RT2" time.Minute] []
           (Fixtures.tracked "RT1" (2 * time.Minute))).
  - reflexivity.
  - reflexivity.
  - constructor; [|constructor]. intros [_ Hfresh]. vm_compute in Hfresh. discriminate Hfresh.
  - reflexivity.
  - vm_compute. reflexivity.
Defined.

(** ** Resolving the operator and the service of a journey *)

Lemma operator_query_spec (ref : string) (o : Operator.t) :
  Journey.operator_query ref o = true
  <-> Operator.PrimaryIdentifier o = ref \/ ref ∈ Operator.OtherIdentifiers o.
Proof.
  unfold Journey.operator_query.
  rewrite orb_true_iff, String.eqb_eq, existsb_exists. split.
  - intros [H|(i & Hi & ->%String.eqb_eq)]; [by left|right]. by apply list_elem_of_In.
  - intros [H|H]; [by left|right]. exists ref. split; [by apply list_elem_of_In|].
    apply String.eqb_refl.
Qed.

Lemma operator_query_miss (ref : string) (o : Operator.t) :
  Journey.operator_query ref o = false
  <-> ~ (Operator.PrimaryIdentifier o = ref \/ ref ∈ Operator.OtherIdentifiers o).
Proof. rewrite <- operator_query_spec. by destruct (Journey.operator_query ref o). Qed.

Lemma service_query_miss (ref : string) (s : Service.t) :
  Journey.service_query ref s = false <-> Service.PrimaryIdentifier s <> ref.
Proof. unfold Journey.service_query. apply String.eqb_neq. Qed.

Lemma set_Operator_same (j : Journey.t) : Journey.set_Operator j (Journey.Operator j) = j.
Proof. by destruct j. Qed.

Lemma set_Service_same (j : Journey.t) : Journey.set_Service j (Journey.Service j) = j.
Proof. by destruct j. Qed.

(** The claim of C5 as worded fails for the service: the journey refers to
    the service by one of its other identifiers, and [GetService], which
    matches the primary identifier alone, leaves the field unset. *)
Lemma service_alternate_identifier_counterexample :
  Journey.Service Fixtures.J1 = None
  /\ Journey.ServiceRef Fixtures.J1 ∈ Service.OtherIdentifiers Fixtures.service_SVC
  /\ Journey.Service
       (Journey.GetService (Fixtures.store [] [Fixtures.service_SVC] []) Fixtures.J1) = None.
Proof.
  split; [reflexivity|]. split; [apply list_elem_of_here|reflexivity].
Qed.

(** C5 (amended). [GetOperator] and [GetService] return the journey as it is
    when the field is already populated.  Otherwise [GetOperator] sets the
    field to the first operator of the store whose primary identifier is the
    reference or whose other identifiers hold it, and [GetService] sets it to
    the first service whose primary identifier is the reference, the other
    identifiers of a service playing no part.  When no document matches the
    journey is returned as it was, the field unset; neither call can fail. *)
Theorem resolve_operator_and_service :
  forall (db : database.Database) (j : Journey.t),
    (is_Some (Journey.Operator j) -> Journey.GetOperator db j = j)
    /\ (is_Some (Journey.Service j) -> Journey.GetService db j = j)
    /\ (Journey.Operator j = None ->
        forall pre o post,
          database.operators db = pre ++ o :: post ->
          Forall (fun x => ~ (Operator.PrimaryIdentifier x = Journey.OperatorRef j
                              \/ Journey.OperatorRef j ∈ Operator.OtherIdentifiers x)) pre ->
          Operator.PrimaryIdentifier o = Journey.OperatorRef j
          \/ Journey.OperatorRef j ∈ Operator.OtherIdentifiers o ->
          Journey.GetOperator db j = Journey.set_Operator j (Some o))
    /\ (Journey.Operator j = None ->
        Forall (fun x => ~ (Operator.PrimaryIdentifier x = Journey.OperatorRef j
                            \/ Journey.OperatorRef j ∈ Operator.OtherIdentifiers x))
               (database.operators db) ->
        Journey.GetOperator db j = j)
    /\ (Journey.Service j = None ->
        forall pre s post,
          database.services db = pre ++ s :: post ->
          Forall (fun x => Service.PrimaryIdentifier x <> Journey.ServiceRef j) pre ->
          Service.PrimaryIdentifier s = Journey.ServiceRef j ->
          Journey.GetService db j = Journey.set_Service j (Some s))
    /\ (Journey.Service j = None ->
        Forall (fun x => Service.PrimaryIdentifier x <> Journey.ServiceRef j)
               (database.services db) ->
        Journey.GetService db j = j).
Proof.
  intros db j. unfold Journey.GetOperator, Journey.GetService, database.FindOne.
  split; [|split; [|split; [|split; [|split]]]].
  - by intros [o ->].
  - by intros [s ->].
  - intros Hnil pre o post Hdb Hpre Ho. rewrite Hnil.
    assert (List.find (Journey.operator_query (Journey.OperatorRef j)) (database.operators db)
            = Some o) as ->; [|reflexivity].
    apply find_first. exists pre, post. split; [exact Hdb|]. split.
    + eapply Forall_impl; [exact Hpre|]. intros x. apply operator_query_miss.
    + by apply operator_query_spec.
  - intros Hnil Hnone. rewrite Hnil.
    assert (List.find (Journey.operator_query (Journey.OperatorRef j)) (database.operators db)
            = None) as ->.
    { apply find_nothing. eapply Forall_impl; [exact Hnone|]. intros x.
      apply operator_query_miss. }
    cbn [database.Decode]. rewrite <- Hnil. apply set_Operator_same.
  - intros Hnil pre s post Hdb Hpre Hs. rewrite Hnil.
    assert (List.find (Journey.service_query (Journey.ServiceRef j)) (database.services db)
            = Some s) as ->; [|reflexivity].
    apply find_first. exists pre, post. split; [exact Hdb|]. split.
    + eapply Forall_impl; [exact Hpre|]. intros x. apply service_query_miss.
    + unfold Journey.service_query. by apply String.eqb_eq.
  - intros Hnil Hnone. rewrite Hnil.
    assert (List.find (Journey.service_query (Journey.ServiceRef j)) (database.services db)
            = None) as ->.
    { apply find_nothing. eapply Forall_impl; [exact Hnone|]. intros x.
      apply service_query_miss. }
    cbn [database.Decode]. rewrite <- Hnil. apply set_Service_same.
Qed.

Lemma resolve_operator_and_service_witness :
  Journey.GetOperator (Fixtures.store [Fixtures.operator_OP] [Fixtures.service_SVC] [])
    Fixtures.J1
  = Journey.set_Operator Fixtures.J1 (Some Fixtures.operator_OP)
  /\ Journey.GetService (Fixtures.store [Fixtures.operator_OP] [Fixtures.service_SVC] [])
       Fixtures.J1
     = Fixtures.J1
  /\ Journey.GetOperator (Fixtures.store [] [] [])
       (Journey.set_Operator Fixtures.J1 (Some Fixtures.operator_OP))
     = Journey.set_Operator Fixtures.J1 (Some Fixtures.operator_OP).
Proof.
  split; [|split].
  - apply (proj1 (proj2 (proj2 (resolve_operator_and_service
             (Fixtures.store [Fixtures.operator_OP] [Fixtures.service_SVC] []) Fixtures.J1)))
             eq_refl [] Fixtures.operator_OP []).
    + reflexivity.
    + constructor.
    + right. apply list_elem_of_here.
  - apply (proj2 (proj2 (proj2 (proj2 (proj2 (resolve_operator_and_service
             (Fixtures.store [Fixtures.operator_OP] [Fixtures.service_SVC] []) Fixtures.J1)))))
             eq_refl).
    constructor; [discriminate|constructor].
  - apply (proj1 (resolve_operator_and_service (Fixtures.store [] [] [])
                    (Journey.set_Operator Fixtures.J1 (Some Fixtures.operator_OP)))).
    eexists. reflexivity.
Defined.

(** ** The cached services-by-stop query *)

Lemma journeys_filter_touches (ids : list string) (d : database.JourneyDocument) :
  databaselookup.journeys_filter ids d = true <-> Authoritative.touches ids d.
Proof.
  unfold databaselookup.journeys_filter, Authoritative.touches.
  rewrite orb_true_iff, !existsb_exists. split.
  - intros [([o d'] & Hin & Hex)|([o d'] & Hin & Hex)];
      apply existsb_exists in Hex as (i & Hi & Heq); apply String.eqb_eq in Heq;
      cbn [fst snd] in Heq; subst i; exists o, d';
      (split; [by apply list_elem_of_In|]).
    + left. by apply list_elem_of_In.
    + right. by apply list_elem_of_In.
  - intros (o & d' & Hin & [Ho|Hd]).
    + left. exists (o, d'). split; [by apply list_elem_of_In|]. apply existsb_exists.
      exists o. split; [by apply list_elem_of_In|apply String.eqb_refl].
    + right. exists (o, d'). split; [by apply list_elem_of_In|]. apply existsb_exists.
      exists d'. split; [by apply list_elem_of_In|apply String.eqb_refl].
Qed.

Lemma service_query_fetch (ref : string) (l : list Service.t) :
  List.find (Journey.service_query ref) l
  = List.find (fun s => bool_decide (Service.PrimaryIdentifier s = ref)) l.
Proof.
  induction l as [|s l IH]; [reflexivity|]. cbn [List.find]. rewrite IH.
  unfold Journey.service_query.
  destruct (String.eqb_spec (Service.PrimaryIdentifier s) ref) as [Heq|Hne].
  - by rewrite bool_decide_eq_true_2.
  - by rewrite bool_decide_eq_false_2.
Qed.

(** The cursor loop fetches the distinct references in the order they are
    first met. *)
Lemma cursor_loop_distinct (Transform : Service.t -> Z -> Service.t)
    (db : database.Database) (docs : list database.JourneyDocument) :
  forall st seen,
    (forall ref, flag_of (databaselookup.serviceFound st) ref = true <-> ref ∈ seen) ->
    databaselookup.services (fold_left (databaselookup.cursor_step Transform db) docs st)
    = databaselookup.services st
      ++ omap (Authoritative.fetch Transform db)
              (Authoritative.distinct seen (database.serviceref <$> docs))
    /\ databaselookup.log (fold_left (databaselookup.cursor_step Transform db) docs st)
       = databaselookup.log st
         ++ (databaselookup.FindOneService
               <$> Authoritative.distinct seen (database.serviceref <$> docs)).
Proof.
  induction docs as [|d docs IH]; intros st seen Hseen;
    cbn [fold_left fmap list_fmap Authoritative.distinct omap list_omap].
  - by rewrite !app_nil_r.
  - unfold databaselookup.cursor_step at 2 4.
    destruct (decide (database.serviceref d ∈ seen)) as [Hin|Hnew].
    + apply Hseen in Hin. rewrite Hin. cbn [negb]. by apply IH.
    + assert (flag_of (databaselookup.serviceFound st) (database.serviceref d) = false) as ->.
      { destruct (flag_of _ _) eqn:Hf; [|reflexivity]. by apply Hseen in Hf. }
      cbn [negb].
      match goal with
      | |- context [fold_left _ docs ?st'] =>
          destruct (IH st' (database.serviceref d :: seen)) as [Hservices Hlog]
      end.
      { intros ref. cbn [databaselookup.serviceFound]. unfold flag_of.
        rewrite elem_of_cons, <- Hseen.
        destruct (decide (database.serviceref d = ref)) as [<-|Hne].
        - rewrite lookup_insert_eq. cbn. split; auto.
        - rewrite lookup_insert_ne by exact Hne. unfold flag_of. split; [auto|].
          intros [H|H]; [congruence|exact H]. }
      rewrite Hservices, Hlog. cbn [databaselookup.services databaselookup.log].
      cbn [omap list_omap fmap list_fmap]. unfold database.FindOne, database.Decode.
      rewrite service_query_fetch. unfold Authoritative.fetch at 2.
      destruct (List.find _ (database.services db)) as [s|];
        cbn [option_map fmap option_fmap option_map]; by rewrite <- !app_assoc.
Qed.

Lemma cache_error_zero_value (decode : list Z -> option (list Service.t))
    (c : gmap string cachedresults.Entry) (key : string) (v : list Service.t)
    (e : cachedresults.error) :
  cachedresults.Get decode c key = (v, Some e) -> v = [].
Proof.
  unfold cachedresults.Get. destruct (c !! key) as [entry|]; [|congruence].
  destruct (decode _); congruence.
Qed.

(** C7. For every services-by-stop query, no cache read error reaches the
    caller: the error returned is always nil.  On a miss or on an entry that
    does not decode the call runs the store computation (one journey scan,
    then one service lookup per distinct service reference), stores the
    services it computed under the query's key with a life of 24 hours, and
    returns them; on an entry that decodes it returns the decoded services at
    once, the store untouched and the cache as it was. *)
Theorem cache_read_error_falls_through :
  forall (encode : list Service.t -> list Z) (decode : list Z -> option (list Service.t))
         (Transform : Service.t -> Z -> Service.t)
         (db : database.Database) (w : databaselookup.world) (q : databaselookup.ServicesByStop),
    let key :=
      ("cachedresults/servicesbystopquery/"
       ++ Stop.PrimaryIdentifier (databaselookup.Stop q))%string in
    let call := databaselookup.ServicesByStopQuery encode decode Transform db w q in
    snd (fst call) = None
    /\ (forall cached,
          cachedresults.Get decode (databaselookup.CachedResults w) key = (cached, None) ->
          call = ((cached, None), w))
    /\ (forall zero e,
          cachedresults.Get decode (databaselookup.CachedResults w) key = (zero, Some e) ->
          let computed :=
            Authoritative.services_touching Transform db (databaselookup.Stop q) in
          call
          = ((computed, None),
             {| databaselookup.CachedResults :=
                  <[key := {| cachedresults.value := encode computed;
                              cachedresults.ttl := 24 * time.Hour |}]>
                    (databaselookup.CachedResults w);
                databaselookup.store_log :=
                  databaselookup.store_log w
                  ++ databaselookup.FindJourneys (Stop.GetAllStopIDs (databaselookup.Stop q))
                     :: (databaselookup.FindOneService
                           <$> Authoritative.references db (databaselookup.Stop q)) |})).
Proof.
  intros encode decode Transform db w q key call.
  assert (forall zero e,
             cachedresults.Get decode (databaselookup.CachedResults w) key = (zero, Some e) ->
             call
             = ((Authoritative.services_touching Transform db (databaselookup.Stop q), None),
                {| databaselookup.CachedResults :=
                     <[key := {| cachedresults.value :=
                                   encode (Authoritative.services_touching Transform db
                                             (databaselookup.Stop q));
                                 cachedresults.ttl := 24 * time.Hour |}]>
                       (databaselookup.CachedResults w);
                   databaselookup.store_log :=
                     databaselookup.store_log w
                     ++ databaselookup.FindJourneys
                          (Stop.GetAllStopIDs (databaselookup.Stop q))
                        :: (databaselookup.FindOneService
                              <$> Authoritative.references db (databaselookup.Stop q)) |}))
    as Hmiss.
  { intros zero e Hget.
    pose proof (cache_error_zero_value _ _ _ _ _ Hget) as ->.
    unfold call, databaselookup.ServicesByStopQuery. fold key. rewrite Hget.
    unfold database.Find.
    match goal with
    | |- context [fold_left _ ?docs ?st] =>
        destruct (cursor_loop_distinct Transform db docs st []) as [Hservices Hlog]
    end.
    { intros ref. unfold flag_of. cbn. rewrite lookup_empty. cbn.
      split; [discriminate|]. intros H. apply elem_of_nil in H. destruct H. }
    rewrite Hservices, Hlog. cbn [databaselookup.services databaselookup.log app].
    unfold cachedresults.Set_, Authoritative.services_touching, Authoritative.references.
    by rewrite <- app_assoc. }
  assert (forall cached,
             cachedresults.Get decode (databaselookup.CachedResults w) key = (cached, None) ->
             call = ((cached, None), w)) as Hhit.
  { intros cached Hget. unfold call, databaselookup.ServicesByStopQuery. fold key.
    by rewrite Hget. }
  split; [|split; [exact Hhit|exact Hmiss]].
  destruct (cachedresults.Get decode (databaselookup.CachedResults w) key) as [v [e|]] eqn:Hget.
  - by rewrite (Hmiss v e).
  - by rewrite (Hhit v).
Qed.

(** A cold cache: the services calling at stop [A] or its platform are
    computed (service [GB:SVC:1], once), cached for 24 hours and returned. *)
Lemma cache_read_error_falls_through_witness :
  databaselookup.ServicesByStopQuery Fixtures.encode_names Fixtures.decode_nothing
    Fixtures.Transform_id Fixtures.lookup_store Fixtures.cold
    {| databaselookup.Stop := Fixtures.stop_A |}
  = (([databaselookup.serviceOpts Fixtures.service_SVC], None),
     {| databaselookup.CachedResults :=
          {[ "cachedresults/servicesbystopquery/A"%string :=
               {| cachedresults.value := [1]; cachedresults.ttl := 86400000000000 |} ]};
        databaselookup.store_log :=
          [ databaselookup.FindJourneys ["A"; "A1"]%string;
            databaselookup.FindOneService "GB:SVC:1";
            databaselookup.FindOneService "GB:SVC:9" ] |}).
Proof.
  rewrite (proj2 (proj2 (cache_read_error_falls_through Fixtures.encode_names
                           Fixtures.decode_nothing Fixtures.Transform_id Fixtures.lookup_store
                           Fixtures.cold {| databaselookup.Stop := Fixtures.stop_A |}))
             [] cachedresults.ErrMiss eq_refl).
  reflexivity.
Defined.

(** ** Deep references: the goroutines of [GetDeepReferences] *)
































(** * Further properties of the code *)

(** ** [FilterIdenticalJourneys] as an operation on lists *)

Lemma filter_loop_defined (flag : bool) (rest : list Journey.t) :
  forall filtered matches out,
    filter_loop flag rest filtered matches = Some out ->
    Forall (fun j => is_Some (Fingerprint.digest_of flag j)) rest.
Proof.
  induction rest as [|j rest IH]; intros filtered matches out Hout; [constructor|].
  cbn [filter_loop] in Hout. unfold Fingerprint.digest_of.
  destruct (Journey.GenerateFunctionalHash j flag) as [h|] eqn:Hh; [|discriminate Hout].
  cbn [mbind option_bind] in Hout. constructor; [eauto|].
  destruct (negb (flag_of matches h)); by eapply IH.
Qed.

(** What the loop returns extends what was kept so far by a subsequence of
    the journeys still to come. *)
Lemma filter_loop_sublist (flag : bool) (rest : list Journey.t) :
  forall filtered matches out,
    filter_loop flag rest filtered matches = Some out ->
    exists kept, out = filtered ++ kept /\ kept `sublist_of` rest.
Proof.
  induction rest as [|j rest IH]; intros filtered matches out Hout; cbn [filter_loop] in Hout.
  - injection Hout as <-. exists []. split; [by rewrite app_nil_r|constructor].
  - destruct (Journey.GenerateFunctionalHash j flag) as [h|]; [|discriminate Hout].
    cbn [mbind option_bind] in Hout.
    destruct (negb (flag_of matches h)).
    + destruct (IH _ _ _ Hout) as (kept & -> & Hsub).
      exists (j :: kept). split; [by rewrite <- app_assoc|by constructor].
    + destruct (IH _ _ _ Hout) as (kept & -> & Hsub).
      exists kept. split; [reflexivity|by constructor].
Qed.

(** Journeys with fingerprints that differ from each other and from all
    those met so far are all kept. *)
Lemma filter_loop_keeps_distinct (flag : bool) (rest : list Journey.t) :
  forall filtered matches,
    Forall (fun j => exists h, Fingerprint.digest_of flag j = Some h
                               /\ flag_of matches h = false) rest ->
    NoDup (Fingerprint.digest_of flag <$> rest) ->
    filter_loop flag rest filtered matches = Some (filtered ++ rest).
Proof.
  induction rest as [|j rest IH]; intros filtered matches Hfresh Hnd; cbn [filter_loop].
  - by rewrite app_nil_r.
  - apply Forall_cons in Hfresh as [(h & Hh & Hnew) Hfresh].
    cbn [fmap list_fmap] in Hnd. apply NoDup_cons in Hnd as [Hj Hnd].
    unfold Fingerprint.digest_of in Hh. rewrite Hh. cbn [mbind option_bind].
    rewrite Hnew. cbn [negb]. rewrite IH; [by rewrite <- app_assoc| |exact Hnd].
    apply Forall_forall. intros j' Hj'. rewrite Forall_forall in Hfresh.
    destruct (Hfresh j' Hj') as (h' & Hh' & Hnew'). exists h'. split; [exact Hh'|].
    unfold flag_of. rewrite lookup_insert_ne; [exact Hnew'|].
    intros ->. apply Hj. unfold Fingerprint.digest_of at 1. rewrite Hh, <- Hh'.
    by apply list_elem_of_fmap_2.
Qed.

(** X1. De-duplicating a de-duplicated list changes nothing: whenever
    [FilterIdenticalJourneys] returns a list, applying it to that list under
    the same flag returns the same list. *)
Theorem deduplicate_idempotent :
  forall (js out : list Journey.t) (flag : bool),
    FilterIdenticalJourneys js flag = Some out ->
    FilterIdenticalJourneys out flag = Some out.
Proof.
  intros js out flag Hout. unfold FilterIdenticalJourneys in *.
  pose proof (filter_loop_defined flag js [] ∅ out Hout) as Hdef.
  destruct (filter_loop_retains flag js [] [] ∅ [] Hdef (retained_start flag))
    as (out' & m & kept & Hout' & _ & _ & Hnd & Hkept & _).
  assert (out' = out) as -> by congruence.
  rewrite (filter_loop_keeps_distinct flag out [] ∅); [reflexivity| |exact Hnd].
  apply Forall_forall. intros j Hj.
  apply list_elem_of_lookup in Hj as (n & Hn).
  destruct (Forall2_lookup_r _ _ _ n j Hkept Hn) as (i & _ & Hi).
  rewrite Forall_forall in Hdef.
  destruct (Hdef j) as [h Hh]; [by eapply list_elem_of_lookup_2|].
  exists h. split; [exact Hh|]. unfold flag_of. by rewrite lookup_empty.
Qed.

Lemma deduplicate_idempotent_witness :
  FilterIdenticalJourneys [Fixtures.J1; Fixtures.J3] true
  = Some [Fixtures.J1; Fixtures.J3].
Proof.
  apply (deduplicate_idempotent [Fixtures.J1; Fixtures.J2; Fixtures.J3; Fixtures.J1]
           [Fixtures.J1; Fixtures.J3] true).
  vm_compute. reflexivity.
Defined.

(** X2. With the flag clear [FilterIdenticalJourneys] returns for every
    list.  Whatever it returns, under either flag, is a subsequence of the
    input that begins with the input's first journey: it is empty for the
    empty input only and never longer than the input. *)
Theorem deduplicate_subsequence :
  (forall js, exists out, FilterIdenticalJourneys js false = Some out)
  /\ (forall js out flag,
        FilterIdenticalJourneys js flag = Some out ->
        out `sublist_of` js
        /\ (length out <= length js)%nat
        /\ head out = head js).
Proof.
  split.
  - intros js.
    destruct (filter_loop_retains false js [] [] ∅ []) as (out & _ & _ & Hout & _).
    + apply Forall_forall. intros j _. unfold Fingerprint.digest_of.
      rewrite hash_without_availability. eauto.
    + apply retained_start.
    + by exists out.
  - intros js out flag Hout.
    destruct (filter_loop_sublist flag js [] ∅ out Hout) as (kept & -> & Hsub).
    cbn [app]. split; [exact Hsub|]. split; [by apply sublist_length|].
    destruct js as [|j js]; [by apply sublist_nil_r in Hsub as ->|].
    unfold FilterIdenticalJourneys in Hout. cbn [filter_loop] in Hout.
    destruct (Journey.GenerateFunctionalHash j flag) as [h|]; [|discriminate Hout].
    cbn [mbind option_bind] in Hout. unfold flag_of at 1 in Hout.
    rewrite lookup_empty in Hout. cbn [default negb app] in Hout.
    destruct (filter_loop_sublist flag js [j] _ _ Hout) as (kept' & Heq & _).
    cbn [app] in Heq. by rewrite Heq.
Qed.

Lemma deduplicate_subsequence_witness :
  [Fixtures.J1; Fixtures.J3] `sublist_of` [Fixtures.J1; Fixtures.J2; Fixtures.J3; Fixtures.J1]
  /\ (length [Fixtures.J1; Fixtures.J3]
      <= length [Fixtures.J1; Fixtures.J2; Fixtures.J3; Fixtures.J1])%nat
  /\ head [Fixtures.J1; Fixtures.J3]
     = head [Fixtures.J1; Fixtures.J2; Fixtures.J3; Fixtures.J1].
Proof.
  apply (proj2 deduplicate_subsequence
           [Fixtures.J1; Fixtures.J2; Fixtures.J3; Fixtures.J1]
           [Fixtures.J1; Fixtures.J3] true).
  vm_compute. reflexivity.
Defined.

(** ** The shape of a fingerprint *)

Lemma compress_length (h block : list Z) :
  length h = 8%nat -> length (Sha256.compress h block) = 8%nat.
Proof.
  intros Hh. unfold Sha256.compress.
  rewrite length_map, length_combine, Hh. reflexivity.
Qed.

Lemma compress_all_length (blocks : list (list Z)) (h : list Z) :
  length h = 8%nat -> length (fold_left Sha256.compress blocks h) = 8%nat.
Proof.
  revert h. induction blocks as [|b blocks IH]; intros h Hh; cbn [fold_left]; [exact Hh|].
  by apply IH, compress_length.
Qed.

Lemma be_bytes_range (n : nat) (x : Z) :
  Forall (fun b => 0 <= b < 256) (Sha256.be_bytes n x).
Proof.
  induction n as [|n IH]; cbn [Sha256.be_bytes]; constructor; [|exact IH].
  change 0xff with (Z.ones 8). rewrite Z.land_ones by lia.
  apply Z.mod_pos_bound. lia.
Qed.

Lemma be_bytes_length (n : nat) (x : Z) : length (Sha256.be_bytes n x) = n.
Proof. induction n as [|n IH]; cbn [Sha256.be_bytes length]; congruence. Qed.

Lemma Sum256_bytes (msg : list Z) :
  length (Sha256.Sum256 msg) = 32%nat
  /\ Forall (fun b => 0 <= b < 256) (Sha256.Sum256 msg).
Proof.
  unfold Sha256.Sum256.
  pose proof (compress_all_length
                (Sha256.chunks 64 (length (Sha256.pad msg) / 64) (Sha256.pad msg))
                Sha256.initial_state eq_refl) as Hlen.
  destruct (fold_left Sha256.compress _ Sha256.initial_state)
    as [|w0 [|w1 [|w2 [|w3 [|w4 [|w5 [|w6 [|w7 [|w8 ws]]]]]]]]]; try discriminate Hlen.
  cbn [flat_map]. split.
  - rewrite !length_app, !be_bytes_length. reflexivity.
  - rewrite !Forall_app. repeat split; try apply be_bytes_range. constructor.
Qed.

Lemma hex_digit_lower (d : Z) :
  0 <= d < 16 ->
  hex_digit d ∈ list_ascii_of_string "0123456789abcdef".
Proof.
  intros Hd.
  assert (d = 0 \/ d = 1 \/ d = 2 \/ d = 3 \/ d = 4 \/ d = 5 \/ d = 6 \/ d = 7 \/ d = 8
          \/ d = 9 \/ d = 10 \/ d = 11 \/ d = 12 \/ d = 13 \/ d = 14 \/ d = 15) as Hcases
    by lia.
  repeat (destruct Hcases as [->|Hcases]; [apply list_elem_of_In; vm_compute; tauto|]).
  subst d. apply list_elem_of_In. vm_compute. tauto.
Qed.

Lemma Sprintf_x_shape (bs : list Z) :
  Forall (fun b => 0 <= b < 256) bs ->
  String.length (Sprintf_x bs) = (2 * length bs)%nat
  /\ Forall (fun c => c ∈ list_ascii_of_string "0123456789abcdef")
            (list_ascii_of_string (Sprintf_x bs)).
Proof.
  induction 1 as [|b bs Hb Hbs [IHlen IHhex]]; [split; [reflexivity|constructor]|].
  change (Sprintf_x (b :: bs))
    with (String (hex_digit (Z.shiftr b 4))
            (String (hex_digit (Z.land b 15)) (Sprintf_x bs))).
  cbn [String.length list_ascii_of_string length]. split; [lia|].
  constructor; [|constructor; [|exact IHhex]].
  - apply hex_digit_lower. rewrite Z.shiftr_div_pow2 by lia.
    change (2 ^ 4) with 16. split; [apply Z.div_pos; lia|].
    apply Z.div_lt_upper_bound; lia.
  - apply hex_digit_lower. change 15 with (Z.ones 4). rewrite Z.land_ones by lia.
    apply Z.mod_pos_bound. lia.
Qed.

(** X3. Whenever [GenerateFunctionalHash] returns, under either flag, the
    fingerprint is a string of exactly 64 characters, each a decimal digit or
    a lower-case letter from [a] to [f]. *)
Theorem fingerprint_is_64_hex_characters :
  forall (j : Journey.t) (flag : bool) (h : string),
    Journey.GenerateFunctionalHash j flag = Some h ->
    String.length h = 64%nat
    /\ Forall (fun c => c ∈ list_ascii_of_string "0123456789abcdef")
              (list_ascii_of_string h).
Proof.
  intros j flag h Hh.
  assert (exists stream, h = Sprintf_x (Sha256.Sum256 stream)) as [stream ->].
  { destruct flag.
    - destruct (Journey.Availability j) as [a|] eqn:Ha.
      + rewrite (hash_with_availability j a Ha) in Hh. injection Hh as <-.
        unfold Fingerprint.digest. eauto.
      + rewrite (hash_nil_availability j Ha) in Hh. discriminate Hh.
    - rewrite hash_without_availability in Hh. injection Hh as <-.
      unfold Fingerprint.digest. eauto. }
  destruct (Sum256_bytes stream) as [Hlen Hrange].
  destruct (Sprintf_x_shape _ Hrange) as [Hshape Hhex].
  split; [by rewrite Hshape, Hlen|exact Hhex].
Qed.

Lemma fingerprint_is_64_hex_characters_witness :
  String.length "0c58232f3045bf95445314a2a286a1368037318dec5d206c0080ceece19238e7" = 64%nat
  /\ Forall (fun c => c ∈ list_ascii_of_string "0123456789abcdef")
            (list_ascii_of_string
               "0c58232f3045bf95445314a2a286a1368037318dec5d206c0080ceece19238e7").
Proof.
  apply (fingerprint_is_64_hex_characters Fixtures.J1 false).
  vm_compute. reflexivity.
Defined.

(** ** Fields run together in the fingerprint *)

Lemma bytes_of_string_app (a b : string) :
  bytes_of_string (a ++ b) = bytes_of_string a ++ bytes_of_string b.
Proof.
  unfold bytes_of_string. induction a as [|c a IH]; [reflexivity|].
  simpl. f_equal. exact IH.
Qed.

Lemma header_text (j : Journey.t) :
  Fingerprint.header j
  = bytes_of_string
      (Journey.ServiceRef j ++ Journey.DestinationDisplay j ++ Journey.Direction j)%string
    ++ bytes_of_string (time.String_ (Journey.DepartureTime j)).
Proof.
  unfold Fingerprint.header. rewrite !bytes_of_string_app. by rewrite <- !app_assoc.
Qed.

(** The fingerprint is a function of three byte streams. *)
Lemma hash_of_streams (j j' : Journey.t) (flag : bool) :
  Fingerprint.header j = Fingerprint.header j' ->
  (flag = true ->
   match Journey.Availability j, Journey.Availability j' with
   | Some a, Some a' => Fingerprint.rules a = Fingerprint.rules a'
   | None, None => True
   | _, _ => False
   end) ->
  flat_map Fingerprint.path_item (Journey.Path j)
  = flat_map Fingerprint.path_item (Journey.Path j') ->
  Journey.GenerateFunctionalHash j flag = Journey.GenerateFunctionalHash j' flag.
Proof.
  intros Hheader Hrules Hpath. destruct flag.
  - specialize (Hrules eq_refl).
    destruct (Journey.Availability j) as [a|] eqn:Ha,
             (Journey.Availability j') as [a'|] eqn:Ha'; try contradiction.
    + rewrite (hash_with_availability j a Ha), (hash_with_availability j' a' Ha').
      by rewrite Hheader, Hrules, Hpath.
    + by rewrite (hash_nil_availability j Ha), (hash_nil_availability j' Ha').
  - rewrite !hash_without_availability. by rewrite Hheader, Hpath.
Qed.

(** X4. The fingerprint does not tell where [ServiceRef] ends and
    [DestinationDisplay] and [Direction] begin: two journeys with the same
    departure time, availability and path whose three strings run together
    to the same text have the same fingerprint under either flag, and the
    second is dropped as a duplicate of the first, also when their service
    references differ. *)
Theorem fingerprint_runs_fields_together :
  forall (j j' : Journey.t) (flag : bool),
    (Journey.ServiceRef j ++ Journey.DestinationDisplay j ++ Journey.Direction j
     = Journey.ServiceRef j' ++ Journey.DestinationDisplay j' ++ Journey.Direction j')%string ->
    Journey.DepartureTime j = Journey.DepartureTime j' ->
    Journey.Availability j = Journey.Availability j' ->
    Journey.Path j = Journey.Path j' ->
    Journey.GenerateFunctionalHash j flag = Journey.GenerateFunctionalHash j' flag
    /\ (is_Some (Journey.GenerateFunctionalHash j flag) ->
        FilterIdenticalJourneys [j; j'] flag = Some [j]).
Proof.
  intros j j' flag Htext Htime Havailability Hpath.
  assert (Journey.GenerateFunctionalHash j flag = Journey.GenerateFunctionalHash j' flag)
    as Hsame.
  { apply hash_of_streams.
    - rewrite !header_text. by rewrite Htext, Htime.
    - intros _. rewrite <- Havailability. by destruct (Journey.Availability j).
    - by rewrite Hpath. }
  split; [exact Hsame|]. intros [h Hh].
  apply (filter_pair_same j j' flag h Hh). by rewrite <- Hsame.
Qed.

Lemma fingerprint_runs_fields_together_witness :
  Journey.ServiceRef Fixtures.J1
  <> Journey.ServiceRef (Fixtures.respelled "SVC" "1Town Centre" "outbound")
  /\ FilterIdenticalJourneys
       [Fixtures.J1; Fixtures.respelled "SVC" "1Town Centre" "outbound"] false
     = Some [Fixtures.J1].
Proof.
  split; [discriminate|].
  apply (proj2 (fingerprint_runs_fields_together Fixtures.J1
                  (Fixtures.respelled "SVC" "1Town Centre" "outbound") false
                  eq_refl eq_refl eq_refl eq_refl)).
  rewrite hash_without_availability. eexists. reflexivity.
Defined.

(** ** Resolving references and the fingerprint *)

Lemma path_item_stream_resolved (into : Stop.t -> Stop.t -> Stop.t) (db : database.Database)
    (p : JourneyPathItem.t) :
  Fingerprint.path_item (JourneyPathItem.GetReferences into db p) = Fingerprint.path_item p.
Proof. reflexivity. Qed.

Lemma path_stream_resolved (into : Stop.t -> Stop.t -> Stop.t) (db : database.Database)
    (ps : list JourneyPathItem.t) :
  flat_map Fingerprint.path_item (JourneyPathItem.GetReferences into db <$> ps)
  = flat_map Fingerprint.path_item ps.
Proof.
  induction ps as [|p ps IH]; [reflexivity|].
  cbn [fmap list_fmap flat_map]. change (list_fmap _ _ ?f ps) with (f <$> ps).
  by rewrite IH, path_item_stream_resolved.
Qed.

Lemma GetOperator_fields (db : database.Database) (j : Journey.t) :
  exists o, Journey.GetOperator db j = Journey.set_Operator j o.
Proof.
  unfold Journey.GetOperator. destruct (Journey.Operator j) eqn:Ho; [|eauto].
  exists (Journey.Operator j). by rewrite set_Operator_same.
Qed.

Lemma GetService_fields (db : database.Database) (j : Journey.t) :
  exists s, Journey.GetService db j = Journey.set_Service j s.
Proof.
  unfold Journey.GetService. destruct (Journey.Service j) eqn:Hs; [|eauto].
  exists (Journey.Service j). by rewrite set_Service_same.
Qed.

(** X5. Enriching a journey never changes its fingerprint: under either
    flag [GetReferences], [GetRealtimeJourney] and the resolution of the stops
    of every path item each leave [GenerateFunctionalHash] as it was, so a
    journey is de-duplicated alike before and after it is resolved, whatever
    the cutoff date is and however a stop document is decoded into a stop
    that is already attached. *)
Theorem enrichment_keeps_fingerprint :
  forall (GetActiveRealtimeJourneyCutOffDate : time.Time -> time.Time)
         (IsActive : RealtimeJourney.t -> bool) (into : Stop.t -> Stop.t -> Stop.t)
         (db : database.Database) (now : time.Time) (j : Journey.t) (flag : bool),
    Journey.GenerateFunctionalHash (Journey.GetReferences db j) flag
    = Journey.GenerateFunctionalHash j flag
    /\ Journey.GenerateFunctionalHash
         (Journey.GetRealtimeJourney GetActiveRealtimeJourneyCutOffDate IsActive db now j)
         flag
       = Journey.GenerateFunctionalHash j flag
    /\ Journey.GenerateFunctionalHash
         (Journey.set_Path j (JourneyPathItem.GetReferences into db <$> Journey.Path j)) flag
       = Journey.GenerateFunctionalHash j flag.
Proof.
  intros cutoffDate IsActive into db now j flag. split; [|split].
  - unfold Journey.GetReferences.
    destruct (GetOperator_fields db j) as [o ->].
    destruct (GetService_fields db (Journey.set_Operator j o)) as [s ->].
    by apply hash_functional_fields.
  - unfold Journey.GetRealtimeJourney.
    destruct (database.Decode _) as [r|]; [|reflexivity].
    destruct (IsActive r); [|reflexivity]. by apply hash_functional_fields.
  - apply hash_of_streams.
    + reflexivity.
    + intros _. cbn [Journey.set_Path Journey.Availability].
      by destruct (Journey.Availability j).
    + cbn [Journey.set_Path Journey.Path]. apply path_stream_resolved.
Qed.

(** ** Resolving twice *)

Lemma GetOperator_idempotent (db : database.Database) (j : Journey.t) :
  Journey.GetOperator db (Journey.GetOperator db j) = Journey.GetOperator db j.
Proof.
  destruct j as [id ids created modified sref s oref [o|] dir dep tz dest av path rt];
    [reflexivity|].
  unfold Journey.GetOperator at 2 3. cbn [Journey.Operator Journey.OperatorRef].
  destruct (database.FindOne (Journey.operator_query oref) (database.operators db))
    as [o|] eqn:Hfind; [reflexivity|].
  unfold Journey.GetOperator. cbn. by rewrite Hfind.
Qed.

Lemma GetService_idempotent (db : database.Database) (j : Journey.t) :
  Journey.GetService db (Journey.GetService db j) = Journey.GetService db j.
Proof.
  destruct j as [id ids created modified sref [s|] oref o dir dep tz dest av path rt];
    [reflexivity|].
  unfold Journey.GetService at 2 3. cbn [Journey.Service Journey.ServiceRef].
  destruct (database.FindOne (Journey.service_query sref) (database.services db))
    as [s|] eqn:Hfind; [reflexivity|].
  unfold Journey.GetService. cbn. by rewrite Hfind.
Qed.

Lemma GetOperator_GetService (db : database.Database) (j : Journey.t) :
  Journey.GetOperator db (Journey.GetService db j)
  = Journey.GetService db (Journey.GetOperator db j).
Proof.
  unfold Journey.GetOperator, Journey.GetService.
  destruct j as [id ids created modified sref [s|] oref [o|] dir dep tz dest av path rt];
    reflexivity.
Qed.

(** X6. [Journey.GetReferences] against an unchanged store is idempotent,
    and its two lookups do not depend on their order: resolving the service
    first and the operator second gives the same journey. *)
Theorem journey_references_idempotent :
  forall (db : database.Database) (j : Journey.t),
    Journey.GetReferences db (Journey.GetReferences db j) = Journey.GetReferences db j
    /\ Journey.GetOperator db (Journey.GetService db j) = Journey.GetReferences db j.
Proof.
  intros db j. unfold Journey.GetReferences. split; [|apply GetOperator_GetService].
  rewrite <- (GetOperator_GetService db (Journey.GetService db (Journey.GetOperator db j))).
  rewrite GetService_idempotent.
  rewrite (GetOperator_GetService db (Journey.GetOperator db j)).
  by rewrite GetOperator_idempotent.
Qed.

(** ** What [FlattenStops] returns *)

Lemma distinct_snoc (seen l : list string) (x : string) :
  Authoritative.distinct seen (l ++ [x])
  = Authoritative.distinct seen l ++ (if decide (x ∈ seen ++ l) then [] else [x]).
Proof.
  revert seen. induction l as [|y l IH]; intros seen; cbn [app Authoritative.distinct].
  - rewrite app_nil_r. by destruct (decide (x ∈ seen)).
  - destruct (decide (y ∈ seen)) as [Hy|Hy]; rewrite IH.
    + f_equal. apply decide_ext. rewrite !elem_of_app, elem_of_cons.
      split; [intros [H|H]; auto|intros [H|[->|H]]; auto].
    + cbn [app]. do 2 f_equal. apply decide_ext.
      rewrite ?elem_of_cons, !elem_of_app, ?elem_of_cons. tauto.
Qed.

Lemma find_snoc {A : Type} (f : A -> bool) (l : list A) (x : A) :
  List.find f (l ++ [x])
  = match List.find f l with
    | Some y => Some y
    | None => if f x then Some x else None
    end.
Proof.
  induction l as [|y l IH]; cbn [app List.find]; [reflexivity|].
  by destruct (f y).
Qed.

Lemma find_origin_none (ref : string) (ps : list JourneyPathItem.t) :
  List.find (fun p => String.eqb (JourneyPathItem.OriginStopRef p) ref) ps = None
  <-> ref ∉ (JourneyPathItem.OriginStopRef <$> ps).
Proof.
  rewrite find_nothing, Forall_forall. split.
  - intros Hnone (p & -> & Hp)%list_elem_of_fmap.
    specialize (Hnone p Hp). cbn in Hnone. by rewrite String.eqb_refl in Hnone.
  - intros Hout p Hp. apply String.eqb_neq. intros <-. apply Hout.
    by apply list_elem_of_fmap_2.
Qed.

(** The state of the loop after the path items [ps]. *)
Lemma flatten_loop_state (ps : list JourneyPathItem.t) :
  let st := fold_left (Journey.flatten_step true) ps
              {| Journey.stops := []; Journey.arrivalTimes := ∅;
                 Journey.departureTimes := ∅; Journey.alreadySeen := ∅ |} in
  Journey.stops st = Authoritative.distinct [] (JourneyPathItem.OriginStopRef <$> ps)
  /\ (forall ref, flag_of (Journey.alreadySeen st) ref = true
                  <-> ref ∈ (JourneyPathItem.OriginStopRef <$> ps))
  /\ (forall ref,
        Journey.arrivalTimes st !! ref
        = JourneyPathItem.OriginArrivalTime
            <$> List.find (fun p => String.eqb (JourneyPathItem.OriginStopRef p) ref) ps)
  /\ (forall ref,
        Journey.departureTimes st !! ref
        = JourneyPathItem.OriginDepartureTime
            <$> List.find (fun p => String.eqb (JourneyPathItem.OriginStopRef p) ref) ps).
Proof.
  induction ps as [|p ps IH] using rev_ind; cbv zeta.
  - cbn. split; [reflexivity|]. split; [|split; intros ref; apply lookup_empty].
    intros ref. unfold flag_of. rewrite lookup_empty. cbn. split; [discriminate|].
    intros H. apply elem_of_nil in H. destruct H.
  - cbv zeta in IH. rewrite fold_left_app. cbn [fold_left].
    set (st := fold_left (Journey.flatten_step true) ps _) in *.
    destruct IH as (Hstops & Hseen & Harrival & Hdeparture).
    rewrite fmap_app. cbn [fmap list_fmap]. rewrite distinct_snoc. cbn [app].
    unfold Journey.flatten_step.
    destruct (flag_of (Journey.alreadySeen st) (JourneyPathItem.OriginStopRef p)) eqn:Hp;
      cbn [negb Journey.stops Journey.alreadySeen Journey.arrivalTimes Journey.departureTimes].
    + pose proof (proj1 (Hseen _) Hp) as Hin.
      rewrite decide_True by exact Hin. rewrite app_nil_r.
      split; [exact Hstops|]. split.
      { intros ref. rewrite Hseen, elem_of_app, list_elem_of_singleton.
        split; [auto|]. intros [H| ->]; auto. }
      split; intros ref; rewrite find_snoc.
      * rewrite Harrival. destruct (List.find _ ps) as [q|] eqn:Hfind; [reflexivity|].
        destruct (String.eqb_spec (JourneyPathItem.OriginStopRef p) ref) as [<-|_];
          [|reflexivity].
        by apply find_origin_none in Hfind.
      * rewrite Hdeparture. destruct (List.find _ ps) as [q|] eqn:Hfind; [reflexivity|].
        destruct (String.eqb_spec (JourneyPathItem.OriginStopRef p) ref) as [<-|_];
          [|reflexivity].
        by apply find_origin_none in Hfind.
    + assert (JourneyPathItem.OriginStopRef p ∉ JourneyPathItem.OriginStopRef <$> ps)
        as Hout.
      { intros Hin. apply Hseen in Hin. congruence. }
      rewrite decide_False by exact Hout.
      split; [by rewrite Hstops|]. split.
      { intros ref. rewrite elem_of_app, list_elem_of_singleton, <- Hseen. unfold flag_of.
        destruct (decide (JourneyPathItem.OriginStopRef p = ref)) as [<-|Hne].
        - rewrite lookup_insert_eq. cbn. split; auto.
        - rewrite lookup_insert_ne by exact Hne. split; [auto|].
          intros [H|H]; [exact H|congruence]. }
      split; intros ref; rewrite find_snoc.
      * destruct (decide (JourneyPathItem.OriginStopRef p = ref)) as [<-|Hne].
        -- rewrite lookup_insert_eq. apply find_origin_none in Hout. rewrite Hout.
           by rewrite String.eqb_refl.
        -- rewrite lookup_insert_ne by exact Hne. rewrite Harrival.
           destruct (List.find _ ps); [reflexivity|].
           by apply String.eqb_neq in Hne as ->.
      * destruct (decide (JourneyPathItem.OriginStopRef p = ref)) as [<-|Hne].
        -- rewrite lookup_insert_eq. apply find_origin_none in Hout. rewrite Hout.
           by rewrite String.eqb_refl.
        -- rewrite lookup_insert_ne by exact Hne. rewrite Hdeparture.
           destruct (List.find _ ps); [reflexivity|].
           by apply String.eqb_neq in Hne as ->.
Qed.

Lemma distinct_elem_of (seen l : list string) (x : string) :
  x ∈ Authoritative.distinct seen l <-> x ∈ l /\ x ∉ seen.
Proof.
  revert seen. induction l as [|y l IH]; intros seen; cbn [Authoritative.distinct].
  - rewrite elem_of_nil. tauto.
  - destruct (decide (y ∈ seen)) as [Hy|Hy].
    + rewrite IH, elem_of_cons. split; [tauto|]. intros [[->|H] Hx]; tauto.
    + rewrite !elem_of_cons, IH, elem_of_cons. split.
      * intros [->|[H Hx]]; tauto.
      * intros [[->|H] Hx]; [by left|]. destruct (decide (x = y)); tauto.
Qed.

Lemma distinct_NoDup (seen l : list string) : NoDup (Authoritative.distinct seen l).
Proof.
  revert seen. induction l as [|y l IH]; intros seen; cbn [Authoritative.distinct].
  - apply NoDup_nil_2.
  - destruct (decide (y ∈ seen)); [apply IH|]. apply NoDup_cons. split; [|apply IH].
    rewrite distinct_elem_of, elem_of_cons. tauto.
Qed.

(** X8. For a journey with at least one path item [FlattenStops] returns the
    origin stops of the path items, each once, in the order they are first
    met; the block after the loop, which looks at the last path item again,
    adds nothing, so the destination of the last path item is returned only
    if it is also the origin of some path item.  The two maps hold, for
    exactly the stops returned, the arrival and the departure time of the
    first path item that starts at the stop. *)
Theorem flatten_stops_first_origins :
  forall j,
    Journey.Path j <> [] ->
    exists arrivals departures,
      Journey.FlattenStops j
      = Some (Authoritative.distinct [] (JourneyPathItem.OriginStopRef <$> Journey.Path j),
              arrivals, departures)
      /\ (forall ref,
            arrivals !! ref
            = JourneyPathItem.OriginArrivalTime
                <$> List.find (fun p => String.eqb (JourneyPathItem.OriginStopRef p) ref)
                              (Journey.Path j))
      /\ (forall ref,
            departures !! ref
            = JourneyPathItem.OriginDepartureTime
                <$> List.find (fun p => String.eqb (JourneyPathItem.OriginStopRef p) ref)
                              (Journey.Path j))
      /\ (forall ref,
            ref ∈ Authoritative.distinct [] (JourneyPathItem.OriginStopRef <$> Journey.Path j)
            <-> is_Some (arrivals !! ref))
      /\ (forall p,
            last (Journey.Path j) = Some p ->
            JourneyPathItem.DestinationStopRef p
              ∉ (JourneyPathItem.OriginStopRef <$> Journey.Path j) ->
            JourneyPathItem.DestinationStopRef p
              ∉ Authoritative.distinct [] (JourneyPathItem.OriginStopRef <$> Journey.Path j)).
Proof.
  intros j Hne. unfold Journey.FlattenStops.
  destruct (exists_last Hne) as (front & lastPathItem & Hpath).
  assert (index (Journey.Path j) (Z.of_nat (length (Journey.Path j)) - 1)
          = Some lastPathItem) as ->
    by (rewrite Hpath; apply index_last_of_nonempty).
  cbn [mbind option_bind].
  pose proof (flatten_loop_state (Journey.Path j)) as Hstate. cbv zeta in Hstate.
  set (st := fold_left (Journey.flatten_step true) (Journey.Path j) _) in *.
  destruct Hstate as (Hstops & Hseen & Harrival & Hdeparture).
  assert (Journey.flatten_step false st lastPathItem = st) as ->.
  { unfold Journey.flatten_step.
    assert (flag_of (Journey.alreadySeen st) (JourneyPathItem.OriginStopRef lastPathItem)
            = true) as ->; [|reflexivity].
    apply Hseen. apply list_elem_of_fmap_2. rewrite Hpath.
    apply elem_of_app. right. apply list_elem_of_here. }
  exists (Journey.arrivalTimes st), (Journey.departureTimes st).
  split; [by rewrite Hstops|]. split; [exact Harrival|]. split; [exact Hdeparture|].
  split.
  - intros ref. rewrite distinct_elem_of, Harrival. split.
    + intros [Hin _].
      destruct (List.find _ (Journey.Path j)) eqn:Hfind; [by eexists|].
      by apply find_origin_none in Hfind.
    + intros [t Ht]. split; [|by intros H%elem_of_nil].
      destruct (List.find _ (Journey.Path j)) as [q|] eqn:Hfind; [|discriminate Ht].
      unfold database.FindOne in *. apply find_first in Hfind as (pre & post & Hl & _ & Hq).
      apply String.eqb_eq in Hq as <-. apply list_elem_of_fmap_2. rewrite Hl.
      apply elem_of_app. right. apply list_elem_of_here.
  - intros p _ Hout Hin. apply distinct_elem_of in Hin as [Hin _]. by apply Hout.
Qed.

(** The path A to B, B to C: stops A and B, not C. *)
Lemma flatten_stops_first_origins_witness :
  exists arrivals departures,
    Journey.FlattenStops Fixtures.J1 = Some (["A"; "B"]%string, arrivals, departures)
    /\ arrivals !! "B"%string = Some Fixtures.at_0810
    /\ arrivals !! "C"%string = None.
Proof.
  destruct (flatten_stops_first_origins Fixtures.J1) as (arrivals & departures & Hcall & Harrival & _);
    [discriminate|].
  exists arrivals, departures. split; [exact Hcall|].
  split; rewrite Harrival; reflexivity.
Defined.

(** ** The services-by-stop query: store lookups and reuse of the cache *)

Lemma query_on_error (encode : list Service.t -> list Z)
    (decode : list Z -> option (list Service.t)) (Transform : Service.t -> Z -> Service.t)
    (db : database.Database) (w : databaselookup.world) (q : databaselookup.ServicesByStop)
    (zero : list Service.t) (e : cachedresults.error) :
  cachedresults.Get decode (databaselookup.CachedResults w)
    ("cachedresults/servicesbystopquery/"
     ++ Stop.PrimaryIdentifier (databaselookup.Stop q))%string = (zero, Some e) ->
  databaselookup.ServicesByStopQuery encode decode Transform db w q
  = ((Authoritative.services_touching Transform db (databaselookup.Stop q), None),
     {| databaselookup.CachedResults :=
          <[("cachedresults/servicesbystopquery/"
             ++ Stop.PrimaryIdentifier (databaselookup.Stop q))%string :=
              {| cachedresults.value :=
                   encode (Authoritative.services_touching Transform db
                             (databaselookup.Stop q));
                 cachedresults.ttl := 24 * time.Hour |}]>
            (databaselookup.CachedResults w);
        databaselookup.store_log :=
          databaselookup.store_log w
          ++ databaselookup.FindJourneys (Stop.GetAllStopIDs (databaselookup.Stop q))
             :: (databaselookup.FindOneService
                   <$> Authoritative.references db (databaselookup.Stop q)) |}).
Proof.
  intros Hget. pose proof (cache_error_zero_value _ _ _ _ _ Hget) as ->.
  unfold databaselookup.ServicesByStopQuery. rewrite Hget. unfold database.Find.
  match goal with
  | |- context [fold_left _ ?docs ?st] =>
      destruct (cursor_loop_distinct Transform db docs st []) as [Hservices Hlog]
  end.
  { intros ref. unfold flag_of. cbn. rewrite lookup_empty. cbn.
    split; [discriminate|]. intros H. apply elem_of_nil in H. destruct H. }
  rewrite Hservices, Hlog. cbn [databaselookup.services databaselookup.log app].
  unfold cachedresults.Set_, Authoritative.services_touching, Authoritative.references.
  by rewrite <- app_assoc.
Qed.

Lemma omap_length_le {A B : Type} (f : A -> option B) (l : list A) :
  (length (omap f l) <= length l)%nat.
Proof.
  induction l as [|x l IH]; [reflexivity|].
  change (omap f (x :: l))
    with (match f x with Some y => y :: omap f l | None => omap f l end).
  destruct (f x); cbn [length]; lia.
Qed.

(** X9. When a services-by-stop query missed the cache (or found an entry
    that does not decode) and the services it computed survive the cache's
    encoding, the same query asked again is answered from the cache: it
    returns the same services, performs no store operation and leaves the
    cache as it is, whatever the store holds by then. *)
Theorem cached_services_are_reused :
  forall (encode : list Service.t -> list Z) (decode : list Z -> option (list Service.t))
         (Transform : Service.t -> Z -> Service.t)
         (db db' : database.Database) (w : databaselookup.world)
         (q : databaselookup.ServicesByStop),
    let first := databaselookup.ServicesByStopQuery encode decode Transform db w q in
    is_Some (snd (cachedresults.Get decode (databaselookup.CachedResults w)
                    ("cachedresults/servicesbystopquery/"
                     ++ Stop.PrimaryIdentifier (databaselookup.Stop q))%string)) ->
    decode (encode (fst (fst first))) = Some (fst (fst first)) ->
    databaselookup.ServicesByStopQuery encode decode Transform db' (snd first) q
    = ((fst (fst first), None), snd first).
Proof.
  intros encode decode Transform db db' w q first [e He] Hround.
  destruct (cachedresults.Get decode (databaselookup.CachedResults w) _)
    as [zero err] eqn:Hget.
  cbn [snd] in He. subst err.
  unfold first in *. rewrite (query_on_error _ _ _ _ _ _ zero e Hget) in *.
  cbn [fst snd] in *.
  unfold databaselookup.ServicesByStopQuery at 1. cbn [databaselookup.CachedResults].
  unfold cachedresults.Get. rewrite lookup_insert_eq. cbn [cachedresults.value].
  by rewrite Hround.
Qed.

(** The cold cache again, now with a codec that does decode what was stored:
    the second call is a hit even against an empty store. *)
Lemma cached_services_are_reused_witness :
  let first :=
    databaselookup.ServicesByStopQuery Fixtures.encode_names Fixtures.decode_one
      Fixtures.Transform_id Fixtures.lookup_store Fixtures.cold
      {| databaselookup.Stop := Fixtures.stop_A |} in
  databaselookup.ServicesByStopQuery Fixtures.encode_names Fixtures.decode_one
    Fixtures.Transform_id (Fixtures.store [] [] []) (snd first)
    {| databaselookup.Stop := Fixtures.stop_A |}
  = ((fst (fst first), None), snd first).
Proof.
  apply (cached_services_are_reused Fixtures.encode_names Fixtures.decode_one
           Fixtures.Transform_id Fixtures.lookup_store (Fixtures.store [] [] [])
           Fixtures.cold {| databaselookup.Stop := Fixtures.stop_A |}).
  - eexists. reflexivity.
  - reflexivity.
Defined.

(** X10. On a cache miss (or an entry that does not decode) the query scans
    the journeys once and then asks the store for each service reference at
    most once: exactly for the references of the journeys whose path touches
    the stop or one of its platforms.  It returns at most one service per
    such reference, and writes the cache entry of this stop only. *)
Theorem store_asked_once_per_service :
  forall (encode : list Service.t -> list Z) (decode : list Z -> option (list Service.t))
         (Transform : Service.t -> Z -> Service.t)
         (db : database.Database) (w : databaselookup.world)
         (q : databaselookup.ServicesByStop),
    let key := ("cachedresults/servicesbystopquery/"
                ++ Stop.PrimaryIdentifier (databaselookup.Stop q))%string in
    let call := databaselookup.ServicesByStopQuery encode decode Transform db w q in
    is_Some (snd (cachedresults.Get decode (databaselookup.CachedResults w) key)) ->
    exists refs,
      databaselookup.store_log (snd call)
      = databaselookup.store_log w
        ++ databaselookup.FindJourneys (Stop.GetAllStopIDs (databaselookup.Stop q))
           :: (databaselookup.FindOneService <$> refs)
      /\ NoDup refs
      /\ (forall ref,
            ref ∈ refs
            <-> exists d, d ∈ database.journeys db
                          /\ Authoritative.touches
                               (Stop.GetAllStopIDs (databaselookup.Stop q)) d
                          /\ database.serviceref d = ref)
      /\ (length (fst (fst call)) <= length refs)%nat
      /\ (forall other, other <> key ->
            databaselookup.CachedResults (snd call) !! other
            = databaselookup.CachedResults w !! other).
Proof.
  intros encode decode Transform db w q key call [e He].
  destruct (cachedresults.Get decode (databaselookup.CachedResults w) key)
    as [zero err] eqn:Hget.
  cbn [snd] in He. subst err.
  unfold call. rewrite (query_on_error _ _ _ _ _ _ zero e Hget). cbn [fst snd].
  cbn [databaselookup.store_log databaselookup.CachedResults].
  exists (Authoritative.references db (databaselookup.Stop q)).
  split; [reflexivity|]. split; [apply distinct_NoDup|]. split; [|split].
  - intros ref. unfold Authoritative.references. rewrite distinct_elem_of, list_elem_of_fmap.
    split.
    + intros [(d & -> & Hd) _]. apply list_elem_of_In, filter_In in Hd as [Hd Hq].
      exists d. split; [by apply list_elem_of_In|]. split; [|reflexivity].
      by apply journeys_filter_touches.
    + intros (d & Hd & Htouch & <-). split; [|by intros H%elem_of_nil].
      exists d. split; [reflexivity|]. apply list_elem_of_In, filter_In.
      split; [by apply list_elem_of_In|]. by apply journeys_filter_touches.
  - apply omap_length_le.
  - intros other Hother. fold key. by rewrite lookup_insert_ne.
Qed.

Lemma store_asked_once_per_service_witness :
  exists refs,
    databaselookup.store_log
      (snd (databaselookup.ServicesByStopQuery Fixtures.encode_names Fixtures.decode_nothing
              Fixtures.Transform_id Fixtures.lookup_store Fixtures.cold
              {| databaselookup.Stop := Fixtures.stop_A |}))
    = databaselookup.FindJourneys ["A"; "A1"]%string
      :: (databaselookup.FindOneService <$> refs)
    /\ NoDup refs.
Proof.
  destruct (store_asked_once_per_service Fixtures.encode_names Fixtures.decode_nothing
              Fixtures.Transform_id Fixtures.lookup_store Fixtures.cold
              {| databaselookup.Stop := Fixtures.stop_A |})
    as (refs & Hlog & Hnd & _).
  - eexists. reflexivity.
  - exists refs. split; [exact Hlog|exact Hnd].
Defined.

(** ** The stops of a stop group *)

Lemma associated_spec (id : string) (d : StopGroup.StopDocument) :
  StopGroup.associated id d = true <-> id ∈ StopGroup.associatedidentifiers d.
Proof.
  unfold StopGroup.associated. rewrite existsb_exists. split.
  - intros (a & Hin & Heq). apply String.eqb_eq in Heq. subst a.
    apply list_elem_of_In. exact Hin.
  - intros Hin. exists id. split.
    + apply list_elem_of_In. exact Hin.
    + apply String.eqb_refl.
Qed.

Lemma set_Stops_set_Stops (g : StopGroup.t) (l k : list Stop.t) :
  StopGroup.set_Stops (StopGroup.set_Stops g l) k = StopGroup.set_Stops g k.
Proof. reflexivity. Qed.

Lemma cursor_loop_appends (cursor : list StopGroup.StopDocument) (g : StopGroup.t) :
  StopGroup.cursor_loop cursor g
  = (found ← mapM StopGroup.decoded cursor;
     Some (StopGroup.set_Stops g (StopGroup.Stops g ++ found))).
Proof.
  revert g. induction cursor as [|d rest IH]; intros g.
  - cbn. destruct g; cbn. rewrite app_nil_r. reflexivity.
  - cbn [StopGroup.cursor_loop mapM]. destruct (StopGroup.decoded d) as [stop|]; cbn.
    + rewrite IH. destruct (mapM StopGroup.decoded rest) as [found|]; cbn.
      * rewrite <- app_assoc. reflexivity.
      * reflexivity.
    + reflexivity.
Qed.

(** X11.  [GetStops] appends to the group's [Stops], in store order, the
    decoded stop of every document that names the group's identifier among
    its associations, and changes nothing else of the group; it does not
    clear [Stops] first, so a second call appends the same stops again.  It
    ends the process exactly when one of the matching documents does not
    decode; documents of other groups are never decoded. *)
Theorem stop_group_stops_are_appended
  (stopsCollection : list StopGroup.StopDocument) (stopGroup : StopGroup.t) :
  let id := StopGroup.Identifier stopGroup in
  let matching := filter (fun d => id ∈ StopGroup.associatedidentifiers d) stopsCollection in
  (StopGroup.GetStops stopsCollection stopGroup = None
   <-> exists d, d ∈ stopsCollection /\ id ∈ StopGroup.associatedidentifiers d
                 /\ StopGroup.decoded d = None)
  /\ (forall after, StopGroup.GetStops stopsCollection stopGroup = Some after ->
        exists found,
          Forall2 (fun d stop => StopGroup.decoded d = Some stop) matching found
          /\ after = StopGroup.set_Stops stopGroup (StopGroup.Stops stopGroup ++ found)
          /\ StopGroup.GetStops stopsCollection after
             = Some (StopGroup.set_Stops stopGroup
                       (StopGroup.Stops stopGroup ++ found ++ found))).
Proof.
  intros id matching.
  assert (Hfind : database.Find (StopGroup.associated id) stopsCollection = matching).
  { unfold database.Find, matching. clear matching.
    induction stopsCollection as [|d rest IH]; [reflexivity|].
    cbn [List.filter]. rewrite filter_cons, IH.
    destruct (StopGroup.associated id d) eqn:Ha.
    - apply associated_spec in Ha. rewrite decide_True by exact Ha. reflexivity.
    - rewrite decide_False; [reflexivity|].
      intros Hin. apply associated_spec in Hin. congruence. }
  assert (Hget : forall g, StopGroup.Identifier g = id ->
            StopGroup.GetStops stopsCollection g
            = (found ← mapM StopGroup.decoded matching;
               Some (StopGroup.set_Stops g (StopGroup.Stops g ++ found)))).
  { intros g Hg. unfold StopGroup.GetStops. rewrite Hg, Hfind.
    apply cursor_loop_appends. }
  assert (Hid : StopGroup.Identifier stopGroup = id) by reflexivity.
  assert (Hid' : forall l, StopGroup.Identifier (StopGroup.set_Stops stopGroup l) = id)
    by reflexivity.
  assert (Hmem : forall d, d ∈ matching
                 <-> id ∈ StopGroup.associatedidentifiers d /\ d ∈ stopsCollection).
  { intros d. unfold matching.
    apply (list_elem_of_filter (fun d => id ∈ StopGroup.associatedidentifiers d)). }
  clearbody matching id.
  split.
  - rewrite (Hget stopGroup Hid). split.
    + intros Hnone.
      destruct (mapM StopGroup.decoded matching) as [found|] eqn:Hm; [discriminate|].
      apply mapM_None in Hm. apply Exists_exists in Hm as (d & Hd & Hdec).
      apply Hmem in Hd as [Ha Hd].
      exists d. auto.
    + intros (d & Hd & Ha & Hdec).
      assert (Hm : mapM StopGroup.decoded matching = None).
      { apply mapM_None. apply Exists_exists. exists d. split; [|exact Hdec].
        apply Hmem. auto. }
      rewrite Hm. reflexivity.
  - intros after Hafter. rewrite (Hget stopGroup Hid) in Hafter.
    destruct (mapM StopGroup.decoded matching) as [found|] eqn:Hm; [|discriminate].
    cbn in Hafter. injection Hafter as <-.
    exists found. split; [|split].
    + apply mapM_Some. exact Hm.
    + reflexivity.
    + rewrite Hget by apply Hid'. cbn.
      rewrite <- app_assoc. reflexivity.
Qed.

Lemma stop_group_stops_are_appended_witness :
  StopGroup.GetStops Samples.stops_collection Samples.stop_group
  = Some (StopGroup.set_Stops Samples.stop_group [Fixtures.stop_A; Samples.stop_B])
  /\ StopGroup.GetStops Samples.stops_collection
       (StopGroup.set_Stops Samples.stop_group [Fixtures.stop_A; Samples.stop_B])
     = Some (StopGroup.set_Stops Samples.stop_group
               [Fixtures.stop_A; Samples.stop_B; Fixtures.stop_A; Samples.stop_B]).
Proof.
  split; [reflexivity|].
  destruct (stop_group_stops_are_appended Samples.stops_collection Samples.stop_group)
    as [_ Hsome].
  destruct (Hsome (StopGroup.set_Stops Samples.stop_group [Fixtures.stop_A; Samples.stop_B])
              eq_refl) as (found & _ & _ & _).
  reflexivity.
Defined.

(** ** Connecting to the cache server *)

Lemma getenv_insert_empty (env : gmap string string) (name key : string) :
  redis_client.getenv (<[name := EmptyString]> env) key
  = redis_client.getenv (delete name env) key.
Proof.
  unfold redis_client.getenv. destruct (decide (name = key)) as [->|Hne].
  - rewrite lookup_insert_eq, lookup_delete_eq. reflexivity.
  - rewrite lookup_insert_ne, lookup_delete_ne by exact Hne. reflexivity.
Qed.

(** X12.  [Connect] reads three variables of the environment.  When the
    database variable is empty or parses as an integer, the client is made
    for the address (the default [localhost:6379] when the variable is
    empty), the password as given and the database (0 when the variable is
    empty), by either branch on the password, and the error returned is the
    ping's.  When the database variable is not empty and does not parse, the
    parse error is returned, the package's client is left as it was and no
    ping is sent.  A variable set to the empty string counts as not set. *)
Theorem redis_connect_reads_environment
  (Ping : redis_client.Options -> option string)
  (env : gmap string string) (Client : option redis_client.Options) :
  let address := redis_client.getenv env "BRITBUS_REDIS_ADDRESS" in
  let password := redis_client.getenv env "BRITBUS_REDIS_PASSWORD" in
  let database := redis_client.getenv env "BRITBUS_REDIS_DATABASE" in
  (forall n : Z,
      (database = EmptyString /\ n = 0) \/ strconv.Atoi database = Some n ->
      let client :=
        {| redis_client.Addr :=
             if String.eqb address "" then "localhost:6379"%string else address;
           redis_client.Password := password;
           redis_client.DB := n |} in
      redis_client.Connect Ping env Client
      = (Some client, redis_client.PingError <$> Ping client))
  /\ (database <> EmptyString -> strconv.Atoi database = None ->
      redis_client.Connect Ping env Client
      = (Client, Some (redis_client.AtoiError database)))
  /\ (forall name : string,
        redis_client.Connect Ping (<[name := EmptyString]> env) Client
        = redis_client.Connect Ping (delete name env) Client).
Proof.
  intros address password database. split; [|split].
  - intros n Hn client.
    assert (Hparsed :
              (if negb (String.eqb database "")
               then match strconv.Atoi database with
                    | Some n => inl n
                    | None => inr (redis_client.AtoiError database)
                    end
               else inl redis_client.defaultDatabase) = inl n).
    { destruct Hn as [[Hempty ->]|Hatoi].
      - rewrite Hempty. reflexivity.
      - destruct (String.eqb_spec database "") as [Hempty|_].
        + rewrite Hempty in Hatoi. discriminate.
        + cbn [negb]. rewrite Hatoi. reflexivity. }
    unfold redis_client.Connect. fold address password database.
    rewrite Hparsed. subst client.
    unfold redis_client.defaultConnectionAddress, redis_client.defaultConnectionPassword.
    destruct (String.eqb_spec address "") as [Ha|Ha];
      destruct (String.eqb_spec password "") as [Hp|Hp]; cbn [negb];
      try rewrite Hp; try rewrite String.eqb_refl;
      try (destruct (String.eqb_spec password "") as [Hp'|_]; [contradiction|]);
      reflexivity.
  - intros Hset Hatoi.
    unfold redis_client.Connect. fold address password database.
    destruct (String.eqb_spec database "") as [Hempty|_]; [contradiction|].
    cbn [negb]. rewrite Hatoi. reflexivity.
  - intros name. unfold redis_client.Connect.
    rewrite !getenv_insert_empty. reflexivity.
Qed.

Lemma redis_connect_reads_environment_witness :
  redis_client.Connect Samples.Ping_ok Samples.environment None
  = (Some {| redis_client.Addr := "cache:6379";
             redis_client.Password := "";
             redis_client.DB := 3 |}, None)
  /\ redis_client.Connect Samples.Ping_ok
       (<["BRITBUS_REDIS_DATABASE" := "three"%string]> Samples.environment) None
     = (None, Some (redis_client.AtoiError "three")).
Proof.
  destruct (redis_connect_reads_environment Samples.Ping_ok Samples.environment None)
    as (Hok & _ & _).
  destruct (redis_connect_reads_environment Samples.Ping_ok
              (<["BRITBUS_REDIS_DATABASE" := "three"%string]> Samples.environment) None)
    as (_ & Hbad & _).
  split.
  - rewrite (Hok 3) by (right; reflexivity). reflexivity.
  - rewrite Hbad; [reflexivity|discriminate|reflexivity].
Defined.

(** ** The registered data sets and their download handlers *)

Lemma registered_handler
  (ParseQuery : string -> gmap string (list string))
  (basicAuth : string -> string -> string)
  (authenticate : string -> string -> string + string)
  (d : datasets.DataSet)
  (h : gmap string string -> http.Request -> datasets.outcome) :
  d ∈ manager.GetRegisteredDataSets ParseQuery basicAuth authenticate ->
  datasets.DownloadHandler d = Some h ->
  (h = manager.national_rail_handler authenticate
   /\ (datasets.Identifier d = "gb-nationalrail-toc"
       \/ datasets.Identifier d = "gb-nationalrail-timetable"))
  \/ (h = manager.network_rail_handler basicAuth
      /\ datasets.Identifier d = "gb-networkrail-corpus")
  \/ (h = manager.bods_handler ParseQuery
      /\ (datasets.Identifier d = "gb-dft-bods-sirivm-all"
          \/ datasets.Identifier d = "gb-dft-bods-gtfs-realtime"
          \/ datasets.Identifier d = "gb-dft-bods-gtfs-schedule")).
Proof.
  unfold manager.GetRegisteredDataSets. intros Hd Hh.
  repeat (apply elem_of_cons in Hd as [->|Hd]);
    [..|apply elem_of_nil in Hd; destruct Hd];
    cbn [datasets.DownloadHandler datasets.Identifier] in *;
    try discriminate Hh; injection Hh as <-; auto 8.
Qed.

(** X13.  No download handler of a registered data set changes the URL of
    the request, and none touches a header other than [X-Auth-Token] and
    [Authorization].  The handler of the three BODS data sets returns the
    request exactly as it was given, for every API key: the key is added to
    the values [r.URL.Query()] parsed, never to the request.  It ends the
    process when the key is not set. *)
Theorem download_handlers_leave_the_url
  (ParseQuery : string -> gmap string (list string))
  (basicAuth : string -> string -> string)
  (authenticate : string -> string -> string + string)
  (d : datasets.DataSet)
  (h : gmap string string -> http.Request -> datasets.outcome)
  (env : gmap string string) (r after : http.Request) :
  d ∈ manager.GetRegisteredDataSets ParseQuery basicAuth authenticate ->
  datasets.DownloadHandler d = Some h ->
  h env r = datasets.Done after ->
  http.URL_RawQuery after = http.URL_RawQuery r
  /\ (forall key : string,
        key <> "X-Auth-Token"%string -> key <> "Authorization"%string ->
        http.Header after !! key = http.Header r !! key)
  /\ (datasets.Identifier d ∈
        ["gb-dft-bods-sirivm-all"; "gb-dft-bods-gtfs-realtime";
         "gb-dft-bods-gtfs-schedule"]%string ->
      after = r /\ manager.getenv env "TRAVIGO_BODS_API_KEY" <> EmptyString).
Proof.
  intros Hd Hh Hdone.
  destruct (registered_handler ParseQuery basicAuth authenticate d h Hd Hh)
    as [[-> Hid]|[[-> Hid]|[-> Hid]]].
  - unfold manager.national_rail_handler, manager.nationalRailLogin in Hdone.
    assert (Hafter : exists token, after = http.Header_Set r "X-Auth-Token" token).
    { destruct (String.eqb _ _); [discriminate|].
      destruct (String.eqb _ _); [discriminate|].
      destruct (authenticate _ _) as [token|message]; [|discriminate].
      injection Hdone as <-. exists token. reflexivity. }
    destruct Hafter as (token & ->). cbn [http.Header_Set http.URL_RawQuery http.Header].
    split; [reflexivity|]. split.
    + intros key Hk _. apply lookup_insert_ne. congruence.
    + intros Hin. exfalso.
      destruct Hid as [Hid|Hid]; rewrite Hid in Hin;
        repeat (apply elem_of_cons in Hin as [Hin|Hin]; [discriminate Hin|]);
        apply elem_of_nil in Hin; destruct Hin.
  - unfold manager.network_rail_handler in Hdone.
    destruct (String.eqb _ _); [discriminate|].
    destruct (String.eqb _ _); [discriminate|].
    injection Hdone as <-. cbn [http.Header_Set http.URL_RawQuery http.Header].
    split; [reflexivity|]. split.
    + intros key _ Hk. apply lookup_insert_ne. congruence.
    + intros Hin. exfalso. rewrite Hid in Hin.
      repeat (apply elem_of_cons in Hin as [Hin|Hin]; [discriminate Hin|]).
      apply elem_of_nil in Hin. destruct Hin.
  - unfold manager.bods_handler in Hdone.
    destruct (String.eqb_spec (manager.getenv env "TRAVIGO_BODS_API_KEY") "")
      as [Hkey|Hkey]; [discriminate|].
    injection Hdone as <-. auto.
Qed.

(** X14.  The registry is consistent: no two registered data sets share an
    identifier; a linked data set names another registered data set, which
    has no link of its own and supplies journeys; the data sets sent to the
    realtime queue are exactly those that supply realtime journeys, and they
    supply nothing else; and the data sets that have no download handler are
    exactly those of Traveline, NaPTAN and Transport for Ireland. *)
Theorem registered_data_sets_are_consistent
  (ParseQuery : string -> gmap string (list string))
  (basicAuth : string -> string -> string)
  (authenticate : string -> string -> string + string) :
  let registry := manager.GetRegisteredDataSets ParseQuery basicAuth authenticate in
  NoDup (datasets.Identifier <$> registry)
  /\ (forall d, d ∈ registry -> datasets.LinkedDataset d <> EmptyString ->
        exists linked,
          linked ∈ registry
          /\ datasets.Identifier linked = datasets.LinkedDataset d
          /\ datasets.Identifier linked <> datasets.Identifier d
          /\ datasets.LinkedDataset linked = EmptyString
          /\ datasets.Journeys (datasets.SupportedObjects_ linked) = true)
  /\ (forall d, d ∈ registry ->
        (datasets.ImportDestination_ d = datasets.ImportDestinationRealtimeQueue
         <-> datasets.RealtimeJourneys (datasets.SupportedObjects_ d) = true)
        /\ (datasets.RealtimeJourneys (datasets.SupportedObjects_ d) = true ->
            datasets.SupportedObjects_ d
            = {| datasets.Operators := false; datasets.OperatorGroups := false;
                 datasets.Stops := false; datasets.StopGroups := false;
                 datasets.Services := false; datasets.Journeys := false;
                 datasets.RealtimeJourneys := true |}))
  /\ (forall d, d ∈ registry ->
        datasets.DownloadHandler d = None
        <-> datasets.Identifier d ∈
              ["gb-traveline-noc"; "gb-dft-naptan"; "ie-gtfs-schedule"]%string).
Proof.
  intros registry. split; [|split; [|split]].
  - apply (bool_decide_unpack _). vm_compute. exact I.
  - unfold registry, manager.GetRegisteredDataSets. intros d Hd Hlink.
    repeat (apply elem_of_cons in Hd as [->|Hd]);
      [..|apply elem_of_nil in Hd; destruct Hd];
      cbn [datasets.LinkedDataset] in Hlink; try (exfalso; apply Hlink; reflexivity).
    eexists. split.
    + do 6 apply list_elem_of_further. apply list_elem_of_here.
    + cbn. repeat split; discriminate.
  - unfold registry, manager.GetRegisteredDataSets. intros d Hd.
    repeat (apply elem_of_cons in Hd as [->|Hd]);
      [..|apply elem_of_nil in Hd; destruct Hd];
      cbn; (split; [split|]); intros; try discriminate; reflexivity.
  - unfold registry, manager.GetRegisteredDataSets. intros d Hd.
    repeat (apply elem_of_cons in Hd as [->|Hd]);
      [..|apply elem_of_nil in Hd; destruct Hd];
      cbn [datasets.DownloadHandler datasets.Identifier];
      (split; [intros Hnone; try discriminate Hnone
              |intros Hin; try reflexivity; exfalso;
               repeat (apply elem_of_cons in Hin as [Hin|Hin]; [discriminate Hin|]);
               apply elem_of_nil in Hin; destruct Hin]).
    + apply list_elem_of_here.
    + apply list_elem_of_further, list_elem_of_here.
    + do 2 apply list_elem_of_further. apply list_elem_of_here.
Qed.

Lemma download_handlers_leave_the_url_witness :
  exists d h,
    d ∈ Samples.registry
    /\ datasets.Identifier d = "gb-dft-bods-gtfs-schedule"%string
    /\ datasets.DownloadHandler d = Some h
    /\ h Samples.environment Samples.request = datasets.Done Samples.request
    /\ http.URL_RawQuery Samples.request = "dataFormat=xml"%string.
Proof.
  exists (default {| datasets.Identifier := ""; datasets.Format := datasets.DataSetFormatCIF;
                     datasets.DataSetProvider := {| datasets.Name := ""; datasets.Website := "" |};
                     datasets.Source := ""; datasets.UnpackBundle := datasets.BundleFormatNone;
                     datasets.SupportedObjects_ := datasets.no_objects;
                     datasets.ImportDestination_ := datasets.ImportDestinationUnset;
                     datasets.LinkedDataset := ""; datasets.DownloadHandler := None |}
            (Samples.registry !! 6%nat)).
  exists (manager.bods_handler Samples.ParseQuery_none).
  assert (Hd : default {| datasets.Identifier := ""; datasets.Format := datasets.DataSetFormatCIF;
                     datasets.DataSetProvider := {| datasets.Name := ""; datasets.Website := "" |};
                     datasets.Source := ""; datasets.UnpackBundle := datasets.BundleFormatNone;
                     datasets.SupportedObjects_ := datasets.no_objects;
                     datasets.ImportDestination_ := datasets.ImportDestinationUnset;
                     datasets.LinkedDataset := ""; datasets.DownloadHandler := None |}
            (Samples.registry !! 6%nat) ∈ Samples.registry).
  { do 6 apply list_elem_of_further. apply list_elem_of_here. }
  split; [exact Hd|]. split; [reflexivity|]. split; [reflexivity|].
  split; [reflexivity|].
  destruct (download_handlers_leave_the_url Samples.ParseQuery_none Samples.basicAuth_plain
              Samples.authenticate_ok _ _ Samples.environment Samples.request Samples.request
              Hd eq_refl eq_refl) as (Hurl & _).
  reflexivity.
Defined.

Lemma registered_data_sets_are_consistent_witness :
  exists linked,
    linked ∈ Samples.registry
    /\ datasets.Identifier linked = "gb-dft-bods-gtfs-schedule"%string
    /\ datasets.LinkedDataset linked = EmptyString.
Proof.
  destruct (registered_data_sets_are_consistent Samples.ParseQuery_none
              Samples.basicAuth_plain Samples.authenticate_ok) as (_ & Hlinked & _).
  assert (Hd : default {| datasets.Identifier := ""; datasets.Format := datasets.DataSetFormatCIF;
                     datasets.DataSetProvider := {| datasets.Name := ""; datasets.Website := "" |};
                     datasets.Source := ""; datasets.UnpackBundle := datasets.BundleFormatNone;
                     datasets.SupportedObjects_ := datasets.no_objects;
                     datasets.ImportDestination_ := datasets.ImportDestinationUnset;
                     datasets.LinkedDataset := ""; datasets.DownloadHandler := None |}
            (Samples.registry !! 5%nat) ∈ Samples.registry).
  { do 5 apply list_elem_of_further. apply list_elem_of_here. }
  destruct (Hlinked _ Hd ltac:(discriminate)) as (linked & Hin & Hid & _ & Hnone & _).
  exists linked. split; [exact Hin|]. split; [exact Hid|exact Hnone].
Defined.

(** ** The digest is SHA-256 *)



